(** * ANPR near-mismatch reports: a shallow embedding of [test2.py]

    The development follows the source file top to bottom: the classifier
    [check_exactly_one_mismatch_or_missing], the loader [process_excel_data],
    the report object [ANPR_Report_PDF] with [create_pdf_report], and the body
    of the upload route [upload_file].

    Python values are modelled as the interpreter has them: a [str] is a
    sequence of Unicode code points, an [int] is a [Z], an exception is a value
    of [exn] carried by the error monad [res], and a pandas frame is a list of
    column labels with a list of rows. The frames are those of pandas before
    version 3, where [astype(str)] turns an empty cell into the text [nan]. *)

From Stdlib Require Import ZArith Floats Uint63 Ascii String DecimalString.
From stdpp Require Import base tactics option functions list numbers sorting.

Set Warnings "-inexact-float".
Local Open Scope Z_scope.

(** ** Strings *)

(** A Python [str]: its code points, in order. *)
Abbreviation pystr := (list N).

(** A literal of the source, written with the characters of Basic Latin. *)
Definition lit (s : string) : pystr :=
  N_of_ascii <$> list_ascii_of_string s.

(** ** Exceptions and the error monad *)

(** The exceptions the program meets. To an [except] clause a
    [UnicodeEncodeError] is also a [ValueError]. *)
Inductive exn :=
  | BadZipFile (msg : pystr)
  | ValueError (msg : pystr)
  | KeyError (key : pystr)
  | IndexError (msg : pystr)
  | TypeError (msg : pystr)
  | ZeroDivisionError (msg : pystr)
  | UnicodeEncodeError (msg : pystr)
  | Exception (msg : pystr).

(** [str(e)]: the text an f-string prints for a caught exception. A
    [KeyError] prints the [repr] of its key. *)
Definition exn_str (e : exn) : pystr :=
  match e with
  | KeyError key => lit "'" ++ key ++ lit "'"
  | BadZipFile msg | ValueError msg | IndexError msg | TypeError msg
  | ZeroDivisionError msg | UnicodeEncodeError msg | Exception msg => msg
  end.

Inductive res (A : Type) :=
  | Ok (a : A)
  | Raise (e : exn).
Arguments Ok {A} a.
Arguments Raise {A} e.

#[global] Instance res_ret : MRet res := λ A a, Ok a.
#[global] Instance res_bind : MBind res := λ A B f m,
  match m with
  | Ok a => f a
  | Raise e => Raise e
  end.

(** Python's [for x in xs: ys.append(f(x))], stopping at the first raise. *)
Fixpoint for_each {A B} (f : A → res B) (xs : list A) : res (list B) :=
  match xs with
  | [] => Ok []
  | x :: xs' => y ← f x; ys ← for_each f xs'; Ok (y :: ys)
  end.

(** ** What the interpreter and the libraries supply

    The Unicode tables behind [str.strip], [str.upper] and [str.lower],
    werkzeug's [secure_filename], the image files on the machine
    ([os.path.exists], and whether [FPDF.image] can read a file), and the
    wording of the error with which the Latin-1 codec refuses the texts of a
    document, given in the order drawn, are not code of this repository. The
    development is parametric in them; [basic_latin] below gives the
    instance used to evaluate the model on concrete input. *)
Class Runtime := {
  isspace : N → bool;
  upper : pystr → pystr;
  lower : pystr → pystr;
  secure_filename : pystr → pystr;
  path_exists : pystr → bool;
  image_loads : pystr → bool;
  encoding_error : list pystr → pystr
}.

Section strings.
Context `{Runtime}.

Fixpoint lstrip (s : pystr) : pystr :=
  match s with
  | [] => []
  | c :: s' => if isspace c then lstrip s' else s
  end.

Definition rstrip (s : pystr) : pystr := reverse (lstrip (reverse s)).

(** [s.strip()] *)
Definition strip (s : pystr) : pystr := rstrip (lstrip s).
End strings.

(** [s[i]] for [i >= 0] *)
Definition getitem (s : pystr) (i : nat) : res N :=
  match s !! i with
  | Some c => Ok c
  | None => Raise (IndexError (lit "string index out of range"))
  end.

(** [range(n)] *)
Definition range (n : nat) : list nat := seq 0 n.

(** [len(s)], a Python [int] *)
Definition len {A} (l : list A) : Z := Z.of_nat (length l).

(** ** The classifier (lines 27-60) *)

(** The loop of lines 43-46, over the indices still to visit. *)
Fixpoint count_mismatches (s1 s2 : pystr) (indices : list nat) (mismatches : Z)
    : res Z :=
  match indices with
  | [] => Ok mismatches
  | i :: indices' =>
      c1 ← getitem s1 i;
      c2 ← getitem s2 i;
      count_mismatches s1 s2 indices'
        (if bool_decide (c1 ≠ c2) then mismatches + 1 else mismatches)
  end.

(** The loop of lines 54-58: [s1[:k] + s1[k+1:]] compared with [s2] for each
    [k], a hit returning at once. *)
Fixpoint try_deletions (s1 s2 : pystr) (indices : list nat) : bool :=
  match indices with
  | [] => false
  | k :: indices' =>
      let temp_s1 := take k s1 ++ drop (k + 1) s1 in
      if bool_decide (temp_s1 = s2) then true
      else try_deletions s1 s2 indices'
  end.

Section classifier.
Context `{Runtime}.

(** The function on two values of type [str], on which the [str(...)] of
    lines 32-33 is the identity; a caller holding a cell passes its
    [py_str]. *)
Definition check_exactly_one_mismatch_or_missing (s1 s2 : pystr) : res bool :=
  let s1 := strip s1 in
  let s2 := strip s2 in
  let len1 := len s1 in
  let len2 := len s2 in
  if bool_decide (s1 = s2) then Ok false
  else if bool_decide (len1 = len2) then
    mismatches ← count_mismatches s1 s2 (range (length s1)) 0;
    Ok (bool_decide (mismatches = 1))
  else if bool_decide (Z.abs (len1 - len2) = 1) then
    let '(s1, s2) := if bool_decide (len1 < len2) then (s2, s1) else (s1, s2) in
    Ok (try_deletions s1 s2 (range (length s1)))
  else Ok false.
End classifier.

(** ** What the specification calls these notions *)

(** The positions among [indices] at which two strings differ. *)
Definition differing (a b : pystr) (indices : list nat) : list nat :=
  filter (λ i, a !! i ≠ b !! i) indices.

(** The number of positions at which two strings differ. *)
Definition hamming (a b : pystr) : nat :=
  length (differing a b (seq 0 (length a))).

(** Removing the character at position [k]: the prefix before [k] followed by
    the suffix after [k]. *)
Definition delete_at (k : nat) (s : pystr) : pystr := take k s ++ drop (S k) s.

(** Some single deletion turns [longer] into [shorter]. *)
Definition one_deletion (longer shorter : pystr) : Prop :=
  ∃ k, (k < length longer)%nat ∧ delete_at k longer = shorter.

(** ** Cells and frames *)

(** A cell of a parsed worksheet: empty ([NaN]), text, a whole number, or a
    float other than NaN. The program prints a float and tests it for
    emptiness, and does nothing else with it, so a float is given by the text
    that [str] prints for it: [0.0] for zero, [7.0] for seven. A column that
    pandas reads as numbers and that has an empty cell holds floats, never
    whole numbers. Dates and booleans are left out. *)
Inductive cell :=
  | NaN
  | Str (s : pystr)
  | Int (z : Z)
  | Float (repr : pystr).

#[global] Instance cell_eq_dec : EqDecision cell.
Proof. solve_decision. Defined.

(** [str(n)] for an [int] *)
Definition decimal (z : Z) : pystr := lit (NilZero.string_of_int (Z.to_int z)).

(** [str(x)], which is also what [astype(str)] does to each element of a
    column: an empty cell becomes the text [nan]. *)
Definition py_str (c : cell) : pystr :=
  match c with
  | NaN => lit "nan"
  | Str s => s
  | Int z => decimal z
  | Float repr => repr
  end.

(** [isnull()] *)
Definition isnull (c : cell) : bool :=
  match c with NaN => true | _ => false end.

(** Truth value of an object: an empty string and zero, of either sign as a
    float, are false, and a float NaN is true. *)
Definition truthy (c : cell) : bool :=
  match c with
  | NaN => true
  | Str s => bool_decide (s ≠ [])
  | Int z => bool_decide (z ≠ 0)
  | Float repr => bool_decide (repr ∉ [lit "0.0"; lit "-0.0"])
  end.

(** A row gives a cell for each column label; only the labels listed in the
    frame's [columns] are meaningful. *)
Abbreviation row := (list N → cell).

Record DataFrame := {
  columns : list pystr;
  rows : list row
}.

(** [df[col]] *)
Definition getcol (df : DataFrame) (col : pystr) : res (list cell) :=
  if bool_decide (col ∈ columns df) then Ok ((λ r : row, r col) <$> rows df)
  else Raise (KeyError col).

(** [df[col] = f(df[col])] for an element-wise [f] *)
Definition map_column (col : pystr) (f : cell → cell) (df : DataFrame)
    : res DataFrame :=
  if bool_decide (col ∈ columns df) then
    Ok {| columns := columns df;
          rows := (λ r : row, <[col := f (r col)]> r) <$> rows df |}
  else Raise (KeyError col).

(** [df.apply(f, axis=1)] for an [f] that returns a [bool]: the series of
    the values of [f] on the rows. On a frame without rows pandas has no
    value to collect and gives an empty series of floats, which is no mask:
    [None] here. *)
Definition apply_rows (f : row → res bool) (df : DataFrame)
    : res (option (list bool)) :=
  match rows df with
  | [] => Ok None
  | _ :: _ => mask ← for_each f (rows df); Ok (Some mask)
  end.

(** [df[mask]] for a boolean mask as long as the frame *)
Fixpoint select (rs : list row) (mask : list bool) : list row :=
  match rs, mask with
  | r :: rs', b :: mask' => if b then r :: select rs' mask' else select rs' mask'
  | _, _ => []
  end.

Definition boolean_index (df : DataFrame) (mask : list bool) : DataFrame :=
  {| columns := columns df; rows := select (rows df) mask |}.

(** [df[key]] for what [apply_rows] gave: the rows kept by a mask, all
    columns with them; by the empty series that is no mask, the columns it
    lists, which is none of them. *)
Definition getitem_series (df : DataFrame) (key : option (list bool)) : DataFrame :=
  match key with
  | Some mask => boolean_index df mask
  | None => {| columns := []; rows := rows df |}
  end.

(** [df.empty] *)
Definition empty (df : DataFrame) : bool :=
  bool_decide (columns df = []) || bool_decide (rows df = []).

(** [df.reindex(columns=cols, fill_value=fill)] *)
Definition reindex (df : DataFrame) (cols : list pystr) (fill : cell) : DataFrame :=
  {| columns := cols;
     rows := (λ (r : row) col, if bool_decide (col ∈ columns df) then r col else fill)
               <$> rows df |}.

(** Lexicographic order on code points: Python's [<=] on [str]. *)
Fixpoint pystr_leb (a b : pystr) : bool :=
  match a, b with
  | [], _ => true
  | _ :: _, [] => false
  | x :: a', y :: b' =>
      if (x <? y)%N then true
      else if (y <? x)%N then false
      else pystr_leb a' b'
  end.

(** The order in which pandas lists group keys: numbers before strings. The
    program groups by a column of text only. Where a float is a key, the
    order given here, whole numbers first and floats by their text, is not
    the order of their values, and keys equal in value but not in text are
    kept apart. *)
Definition cell_leb (a b : cell) : bool :=
  match a, b with
  | Int x, Int y => bool_decide (x ≤ y)
  | Int _, _ => true
  | Float _, Int _ => false
  | Float x, Float y => pystr_leb x y
  | Float _, _ => true
  | Str _, Int _ => false
  | Str _, Float _ => false
  | Str x, Str y => pystr_leb x y
  | Str _, NaN => true
  | NaN, NaN => true
  | NaN, _ => false
  end.

Definition cell_le (a b : cell) : Prop := cell_leb a b.

(** The rows of a frame whose cell in [col] is [key], in order. *)
Definition group (df : DataFrame) (col : pystr) (key : cell) : DataFrame :=
  {| columns := columns df; rows := filter (λ r : row, r col = key) (rows df) |}.

(** The keys of a grouping: the values that are not missing, once each, in
    sorted order. *)
Definition sorted_keys (values : list cell) : list cell :=
  merge_sort cell_le (remove_dups (filter (λ k, isnull k = false) values)).

(** [df.groupby(col)], as the list of [(key, group)] pairs an iteration
    yields. *)
Definition groupby (df : DataFrame) (col : pystr) : res (list (cell * DataFrame)) :=
  values ← getcol df col;
  Ok ((λ key, (key, group df col key)) <$> sorted_keys values).

(** [groups.get_group(name)] *)
Fixpoint get_group (groups : list (cell * DataFrame)) (name : cell) : res DataFrame :=
  match groups with
  | [] => Raise (KeyError (py_str name))
  | (k, g) :: groups' => if bool_decide (k = name) then Ok g else get_group groups' name
  end.

(** ** Constants of the module *)

Definition SOURCE_COL : pystr := lit "source".
Definition ANPR_COL : pystr := lit "ANPR Plate Number".
Definition TC_COL : pystr := lit "TC_PLATE Number".
Definition SEQUENCE_COL : pystr := lit "ANPR Sequence".
Definition COLUMNS_TO_KEEP : list pystr :=
  [lit "ANPR Sequence"; lit "ANPR Plate Number"; lit "TC_PLATE Number";
   lit "image_path"; lit "vehicle_image"].

(** ** The loader (lines 62-104) *)

Definition missing_columns_message : pystr :=
  lit "Excel missing required columns: **" ++ ANPR_COL ++ lit "**, **" ++ TC_COL
    ++ lit "**, or **" ++ SOURCE_COL ++ lit "**.".

(** What the function returns: the triple [(mismatch_df, count, full_df)], or
    [(None, message, None)]. *)
Inductive loaded :=
  | Loaded (mismatch_df : DataFrame) (count : Z) (full_df : DataFrame)
  | Failed (message : pystr).

Section loader.
Context `{Runtime}.

(** The [try] block. [sheet] is what [pd.read_excel] gave for the stream: a
    frame, or the exception it raised. *)
Definition process_excel_data_try (sheet : res DataFrame)
    : res (DataFrame * Z * DataFrame) :=
  full_df ← sheet;
  if bool_decide (ANPR_COL ∉ columns full_df)
     || bool_decide (TC_COL ∉ columns full_df)
     || bool_decide (SOURCE_COL ∉ columns full_df)
  then Raise (ValueError missing_columns_message)
  else
    full_df ← map_column ANPR_COL (λ c, Str (upper (strip (py_str c)))) full_df;
    full_df ← map_column TC_COL (λ c, Str (upper (strip (py_str c)))) full_df;
    full_df ← map_column SOURCE_COL (λ c, Str (strip (py_str c))) full_df;
    filter_mask ← apply_rows
      (λ r : row, check_exactly_one_mismatch_or_missing
                    (py_str (r ANPR_COL)) (py_str (r TC_COL)))
      full_df;
    let mismatch_df := getitem_series full_df filter_mask in
    Ok (mismatch_df, len (rows mismatch_df), full_df).

Definition process_excel_data (sheet : res DataFrame) : loaded :=
  match process_excel_data_try sheet with
  | Ok (mismatch_df, count, full_df) => Loaded mismatch_df count full_df
  | Raise (BadZipFile _ as e) =>
      Failed (lit "File Error: The uploaded file is corrupted or not a valid Excel (.xlsx) file. Details: "
                ++ exn_str e)
  | Raise ((ValueError _ | UnicodeEncodeError _) as e) => Failed (exn_str e)
  | Raise e =>
      Failed (lit "An unexpected error occurred during Excel reading: " ++ exn_str e)
  end.
End loader.

(** ** Numbers as the report prints them *)

(** An [int] as a binary64 float; exact for magnitudes up to [2^53], far above
    any row count of a worksheet. *)
Definition float_of_int (z : Z) : float :=
  if bool_decide (z < 0) then PrimFloat.opp (PrimFloat.of_uint63 (Uint63.of_Z (- z)))
  else PrimFloat.of_uint63 (Uint63.of_Z z).

(** [a / b] on two [int]s *)
Definition truediv (a b : Z) : res float :=
  if bool_decide (b = 0) then Raise (ZeroDivisionError (lit "division by zero"))
  else Ok (PrimFloat.div (float_of_int a) (float_of_int b)).

(** [num / den] rounded to the nearest integer, a tie going to the even one. *)
Definition round_half_even (num den : Z) : Z :=
  let q := num / den in
  let r := num mod den in
  if bool_decide (2 * r < den) then q
  else if bool_decide (den < 2 * r) then q + 1
  else if Z.even q then q else q + 1.

(** A number of hundredths printed with two decimals. *)
Definition hundredths (h : Z) : pystr :=
  decimal (h / 100) ++ lit "." ++ decimal (h mod 100 / 10) ++ decimal (h mod 10).

(** [f'{x:.2f}']: the exact value of the float, correctly rounded to two
    decimals. *)
Definition format_2f (x : float) : pystr :=
  match Prim2SF x with
  | S754_nan => lit "nan"
  | S754_infinity s => if s then lit "-inf" else lit "inf"
  | S754_zero s => if s then lit "-0.00" else lit "0.00"
  | S754_finite s m e =>
      let h := if bool_decide (0 ≤ e) then Z.pos m * 100 * 2 ^ e
               else round_half_even (Z.pos m * 100) (2 ^ (- e)) in
      (if s then lit "-" else []) ++ hundredths h
  end.

(** ** The report object (lines 113-220)

    A document is modelled by what is drawn on it, in order, and by the
    place where the next thing is drawn, as far as the code reads it: the
    number of the page and the distance from its top, which decide where a
    new page starts. Horizontal positions, fonts and colours are not
    modelled. *)

Inductive image_cell :=
  | Image (path : pystr)
  | ImageNotFound
  | ImageLoadError.

Inductive drawn :=
  | Title (text : pystr)
  | Footer (text : pystr)
  | HeaderRow (headers : list pystr)
  | DataRow (texts : list pystr) (plate_image vehicle_image : image_cell)
  | SummaryHeading (text : pystr)
  | SummaryLine (label value : pystr).

Record ANPR_Report_PDF := {
  report_title : cell;
  total_count : Z;
  mismatch_count : Z;
  zero_seq_count : Z;
  content : list drawn
}.

Definition draw (pdf : ANPR_Report_PDF) (items : list drawn) : ANPR_Report_PDF :=
  {| report_title := report_title pdf;
     total_count := total_count pdf;
     mismatch_count := mismatch_count pdf;
     zero_seq_count := zero_seq_count pdf;
     content := content pdf ++ items |}.

(** [page_no()], zero before the first page, and [get_y()], in millimetres
    from the top of the page. *)
Record position := {
  page_no : Z;
  get_y : float
}.

(** The object a method works on: the fields and what is drawn, with the
    position. *)
Abbreviation document := (ANPR_Report_PDF * position)%type.

Definition IMAGE_HEIGHT_MM : Z := 30.

(** The constants of FPDF for an A4 page measured in millimetres: the
    points in a millimetre, the top margin of one centimetre, and the
    height below which nothing more is started, which
    [set_auto_page_break(False, margin=15)] puts at fifteen millimetres
    above the foot of the page (line 249). *)
Definition points_per_mm : float := (72 / 25.4)%float.
Definition top_margin : float := (28.35 / points_per_mm)%float.
Definition page_break_trigger : float := (841.89 / points_per_mm - 15)%float.

(** [header], which [add_page] calls: the title in a cell of height 10, and
    a line feed of 5. *)
Definition header (self : document) : document :=
  (draw self.1 [Title (lit "Near-Mismatch Report: " ++ py_str (report_title self.1))],
   {| page_no := page_no self.2; get_y := (get_y self.2 + 10 + 5)%float |}).

(** [footer], which closing a page calls *)
Definition footer (self : document) : document :=
  (draw self.1 [Footer (lit "Page " ++ decimal (page_no self.2))], self.2).

(** [add_page]: the footer closes the page before, if there is one, and the
    header opens the new page at the top margin. *)
Definition add_page (self : document) : document :=
  let self := if bool_decide (page_no self.2 > 0) then footer self else self in
  header (self.1, {| page_no := page_no self.2 + 1; get_y := top_margin |}).

(** [print_header_row]: five cells of height 10 and a line feed of that
    height. *)
Definition print_header_row (self : document) : document :=
  (draw self.1 [HeaderRow [lit "Sequence"; lit "ANPR Plate"; lit "TC Plate";
                           lit "Plate Image"; lit "Vehicle Image"]],
   {| page_no := page_no self.2; get_y := (get_y self.2 + 10)%float |}).

(** The texts of a thing drawn. An image is not text. *)
Definition texts_of (d : drawn) : list pystr :=
  match d with
  | Title text | Footer text | SummaryHeading text => [text]
  | HeaderRow headers => headers
  | DataRow texts plate_image vehicle_image =>
      texts
      ++ match plate_image with
         | Image _ => []
         | ImageNotFound => [lit "Image Not Found"]
         | ImageLoadError => [lit "Image Load Error"]
         end
      ++ match vehicle_image with
         | Image _ => []
         | ImageNotFound => [lit "Image Not Found"]
         | ImageLoadError => [lit "Image Load Error"]
         end
  | SummaryLine label value => [label; value]
  end.

(** [s.encode('latin-1')] succeeds: every code point is below 256. *)
Definition latin1 (s : pystr) : bool := forallb (λ c, c <? 256)%N s.

Section report.
Context `{Runtime}.

(** [insert_image_cell]: the image when the path is non-empty, exists and
    loads; a placeholder otherwise. *)
Definition insert_image_cell (data : row) (path_key : pystr) : image_cell :=
  let image_path := py_str (data path_key) in
  if bool_decide (image_path ≠ []) && path_exists image_path then
    if image_loads image_path then Image image_path else ImageLoadError
  else ImageNotFound.

(** [add_data_row]: a new page with its header row when the row and five
    millimetres more would pass the trigger, then the row, which leaves the
    position one row height further down. *)
Definition add_data_row (self : document) (data : row) : document :=
  let self :=
    if PrimFloat.ltb page_break_trigger
         (get_y self.2 + float_of_int IMAGE_HEIGHT_MM + 5)%float
    then print_header_row (add_page self)
    else self in
  let y_start := get_y self.2 in
  let text_data := (λ col, py_str (data col)) <$> take 3 COLUMNS_TO_KEEP in
  (draw self.1 [DataRow text_data
                  (insert_image_cell data (lit "image_path"))
                  (insert_image_cell data (lit "vehicle_image"))],
   {| page_no := page_no self.2;
      get_y := (y_start + float_of_int IMAGE_HEIGHT_MM)%float |}).

(** [print_summary], on the fields and what is drawn: nothing reads the
    position after it. *)
Definition print_summary (pdf : ANPR_Report_PDF) : res ANPR_Report_PDF :=
  let pdf := draw pdf [SummaryHeading (lit "--- Report Summary ---")] in
  let pdf := draw pdf [SummaryLine (lit "Total Vehicles in this Source/Lane:")
                         (decimal (total_count pdf))] in
  let pdf := draw pdf [SummaryLine (lit "Vehicles with Zero/Unidentified Sequence:")
                         (decimal (zero_seq_count pdf))] in
  let pdf := draw pdf [SummaryLine (lit "Near-Mismatched Vehicles:")
                         (decimal (mismatch_count pdf))] in
  if bool_decide (total_count pdf > 0) then
    quotient ← truediv (mismatch_count pdf) (total_count pdf);
    let percentage := PrimFloat.mul quotient (float_of_int 100) in
    Ok (draw pdf [SummaryLine (lit "Mismatch Percentage:")
                    (format_2f percentage ++ lit "%")])
  else Ok pdf.

(** [output(dest='S')]: the last page is closed with its footer, and the
    pages are encoded in Latin-1, the encoding of the core font Arial that
    every text of the report is set in; a character outside Latin-1 anywhere
    in the document makes the encoding fail. The value returned stands for
    the bytes of the document. *)
Definition output (self : document) : res ANPR_Report_PDF :=
  let pdf := (footer self).1 in
  let texts := concat (texts_of <$> content pdf) in
  if forallb latin1 texts then Ok pdf
  else Raise (UnicodeEncodeError (encoding_error texts)).

(** The three tests of lines 235-237 on one cell of the sequence column. *)
Definition zero_or_unidentified (c : cell) : bool :=
  bool_decide (strip (py_str c) = lit "0")
  || isnull c
  || bool_decide (strip (py_str c) = lit "unidentified").

(** Lines 223-268. *)
Definition create_pdf_report (df_mismatch df_full_source : DataFrame)
    (source_name : cell) : res ANPR_Report_PDF :=
  let df_report := reindex df_mismatch COLUMNS_TO_KEEP (Str []) in
  let total_vehicles := len (rows df_full_source) in
  let mismatch_vehicles := len (rows df_mismatch) in
  sequences ← getcol df_full_source SEQUENCE_COL;
  let zero_seq_count := len (filter (λ c, zero_or_unidentified c = true) sequences) in
  let pdf : document :=
    ({| report_title := source_name;
        total_count := total_vehicles;
        mismatch_count := mismatch_vehicles;
        zero_seq_count := zero_seq_count;
        content := [] |},
     {| page_no := 0; get_y := 0 |}) in
  let pdf := add_page pdf in
  let pdf := print_header_row pdf in
  let pdf := foldl
    (λ (pdf : document) (r : row),
       let row_dict := <[lit "image_path" := Str (py_str (r (lit "image_path")))]> r in
       let row_dict :=
         <[lit "vehicle_image" := Str (py_str (row_dict (lit "vehicle_image")))]> row_dict in
       add_data_row pdf row_dict)
    pdf (rows df_report) in
  let pdf :=
    if PrimFloat.ltb page_break_trigger (get_y pdf.2 + 50)%float then add_page pdf
    else pdf in
  summary ← print_summary pdf.1;
  output (summary, pdf.2).
End report.

(** ** The upload route (lines 294-353)

    The model starts where the route has accepted the file: at the [try] block
    of line 294. A response is the flashed message with its category, followed
    by a redirect to the form or by the archive sent for download; the archive
    is the list of entries written to it, in order. *)

Inductive response :=
  | Redirect (message category : pystr)
  | SendFile (message category : pystr) (archive : list (pystr * ANPR_Report_PDF)).

(** The code point of the check mark that opens the success messages. *)
Definition check_mark : pystr := [9989%N].

Definition no_mismatch_message : pystr :=
  check_mark ++ lit " File processed successfully! No near-mismatches found.".

Definition found_message (count total_pdf_count : Z) : pystr :=
  check_mark ++ lit " Found **" ++ decimal count
    ++ lit "** total near-mismatches, grouped into **" ++ decimal total_pdf_count
    ++ lit "** reports. Downloading ZIP file.".

Section route.
Context `{Runtime}.

(** [secure_filename(source_name)]: the library works on a [str] and raises
    on anything else. *)
Definition secure_filename_of (source_name : cell) : res pystr :=
  match source_name with
  | Str s => Ok (secure_filename s)
  | _ => Raise (TypeError (lit "normalize() argument 2 must be str"))
  end.

(** Lines 323-324 *)
Definition display_name (source_name : cell) : cell :=
  if negb (truthy source_name)
     || bool_decide (lower (strip (py_str source_name)) = lit "nan")
  then Str (lit "UNSPECIFIED_SOURCE")
  else source_name.

(** The loop of lines 317-334 over the groups still to visit, with the
    entries written so far and the counter. *)
Fixpoint report_loop (full_groups mismatch_groups : list (cell * DataFrame))
    (zf : list (pystr * ANPR_Report_PDF)) (total_pdf_count : Z)
    : res (list (pystr * ANPR_Report_PDF) * Z) :=
  match mismatch_groups with
  | [] => Ok (zf, total_pdf_count)
  | (source_name, mismatch_group_df) :: mismatch_groups' =>
      full_group_df ← get_group full_groups source_name;
      let source_name := display_name source_name in
      pdf_bytes ← create_pdf_report mismatch_group_df full_group_df source_name;
      safe_source_name ← secure_filename_of source_name;
      let pdf_filename := lit "ANPR_Report_" ++ safe_source_name ++ lit ".pdf" in
      report_loop full_groups mismatch_groups'
        (zf ++ [(pdf_filename, pdf_bytes)]) (total_pdf_count + 1)
  end.

Definition upload_file_try (sheet : res DataFrame) : res response :=
  match process_excel_data sheet with
  | Failed count =>
      Ok (Redirect (lit "Processing Error: " ++ count) (lit "error"))
  | Loaded mismatch_df count full_df =>
      if empty mismatch_df then Ok (Redirect no_mismatch_message (lit "success"))
      else
        mismatch_groups ← groupby mismatch_df SOURCE_COL;
        full_groups ← groupby full_df SOURCE_COL;
        '(zf, total_pdf_count) ← report_loop full_groups mismatch_groups [] 0;
        Ok (SendFile (found_message count total_pdf_count) (lit "success") zf)
  end.

Definition upload_file (sheet : res DataFrame) : response :=
  match upload_file_try sheet with
  | Ok r => r
  | Raise e =>
      Redirect (lit "An unexpected error occurred during processing or report generation: "
                  ++ exn_str e) (lit "error")
  end.
End route.

(** ** An instance for evaluation: Basic Latin text, no image files

    [isspace] is the interpreter's table of white space. [upper] and [lower]
    change the letters of Basic Latin and leave other code points alone, and
    [secure_filename] is werkzeug's function on a POSIX system, both exact on
    Basic Latin input. The error of the codec is given one wording for every
    document. *)

Definition unicode_isspace (c : N) : bool :=
  bool_decide (c ∈ [9; 10; 11; 12; 13; 28; 29; 30; 31; 32; 133; 160; 5760;
                    8192; 8193; 8194; 8195; 8196; 8197; 8198; 8199; 8200; 8201;
                    8202; 8232; 8233; 8239; 8287; 12288]%N).

Definition latin_upper (s : pystr) : pystr :=
  (λ c, if bool_decide (97 ≤ c ≤ 122)%N then (c - 32)%N else c) <$> s.

Definition latin_lower (s : pystr) : pystr :=
  (λ c, if bool_decide (65 ≤ c ≤ 90)%N then (c + 32)%N else c) <$> s.

(** [s.split()]: the maximal runs without white space. [word] is the run
    being read. *)
Fixpoint split_whitespace (s word : pystr) : list pystr :=
  match s with
  | [] => if bool_decide (word = []) then [] else [word]
  | c :: s' =>
      if unicode_isspace c then
        if bool_decide (word = []) then split_whitespace s' []
        else word :: split_whitespace s' []
      else split_whitespace s' (word ++ [c])
  end.

(** ["_".join(words)] *)
Fixpoint join_underscore (words : list pystr) : pystr :=
  match words with
  | [] => []
  | [w] => w
  | w :: words' => w ++ lit "_" ++ join_underscore words'
  end.

(** A character the file name keeps: a letter or digit of Basic Latin, or one
    of [_], [.] and [-]. *)
Definition filename_char (c : N) : bool :=
  bool_decide (48 ≤ c ≤ 57)%N || bool_decide (65 ≤ c ≤ 90)%N
  || bool_decide (97 ≤ c ≤ 122)%N || bool_decide (c ∈ [95; 46; 45]%N).

Fixpoint lstrip_chars (chars s : pystr) : pystr :=
  match s with
  | [] => []
  | c :: s' => if bool_decide (c ∈ chars) then lstrip_chars chars s' else s
  end.

Definition strip_chars (chars s : pystr) : pystr :=
  reverse (lstrip_chars chars (reverse (lstrip_chars chars s))).

Definition posix_secure_filename (filename : pystr) : pystr :=
  let filename := filter (λ c, c < 128)%N filename in
  let filename := (λ c, if bool_decide (c = 47%N) then 32%N else c) <$> filename in
  let filename := join_underscore (split_whitespace filename []) in
  strip_chars (lit "._") (filter (λ c, filename_char c = true) filename).

Definition basic_latin : Runtime := {|
  isspace := unicode_isspace;
  upper := latin_upper;
  lower := latin_lower;
  secure_filename := posix_secure_filename;
  path_exists := λ _, false;
  image_loads := λ _, false;
  encoding_error := λ _, lit "'latin-1' codec can't encode character"
|}.

(** A row given by its non-empty cells. *)
Fixpoint row_of (cells : list (pystr * cell)) : row :=
  match cells with
  | [] => λ _, NaN
  | (col, c) :: cells' => <[col := c]> (row_of cells')
  end.

(** ** Notions used to state the properties *)

Section notions.
Context `{Runtime}.

(** A row after the cleaning of lines 81-83, column by column. *)
Definition cleaned (r : row) : row :=
  let r := <[ANPR_COL := Str (upper (strip (py_str (r ANPR_COL))))]> r in
  let r := <[TC_COL := Str (upper (strip (py_str (r TC_COL))))]> r in
  <[SOURCE_COL := Str (strip (py_str (r SOURCE_COL)))]> r.

(** The classifier's verdict on the two plates of a row. *)
Definition near_mismatch (r : row) : bool :=
  match check_exactly_one_mismatch_or_missing
          (py_str (r ANPR_COL)) (py_str (r TC_COL)) with
  | Ok b => b
  | Raise _ => false
  end.

(** What [print_summary] draws for given counts. *)
Definition summary_lines (total mismatch zero : Z) : list drawn :=
  [SummaryHeading (lit "--- Report Summary ---");
   SummaryLine (lit "Total Vehicles in this Source/Lane:") (decimal total);
   SummaryLine (lit "Vehicles with Zero/Unidentified Sequence:") (decimal zero);
   SummaryLine (lit "Near-Mismatched Vehicles:") (decimal mismatch)]
  ++ if bool_decide (total > 0) then
       [SummaryLine (lit "Mismatch Percentage:")
          (format_2f (PrimFloat.mul
                        (PrimFloat.div (float_of_int mismatch) (float_of_int total))
                        (float_of_int 100))
             ++ lit "%")]
     else [].

(** What [create_pdf_report] draws for one row of the mismatch group. *)
Definition data_row (columns_present : list pystr) (r : row) : drawn :=
  let r : row := λ col, if bool_decide (col ∈ columns_present) then r col else Str [] in
  let row_dict := <[lit "image_path" := Str (py_str (r (lit "image_path")))]> r in
  let row_dict :=
    <[lit "vehicle_image" := Str (py_str (row_dict (lit "vehicle_image")))]> row_dict in
  DataRow ((λ col, py_str (row_dict col)) <$> take 3 COLUMNS_TO_KEEP)
    (insert_image_cell row_dict (lit "image_path"))
    (insert_image_cell row_dict (lit "vehicle_image")).

(** The three texts of a row's line of the table: the sequence and the two
    plates, each empty when the mismatch frame lacks its column. *)
Definition table_texts (columns_present : list pystr) (r : row) : list pystr :=
  (λ col, py_str (if bool_decide (col ∈ columns_present) then r col else Str []))
    <$> take 3 COLUMNS_TO_KEEP.

(** The archive entry [entry] is the report of the source [key]: the
    document made from the rows of the two frames whose source is [key],
    under the file name derived from [key]. *)
Definition report_of (mismatch_df full_df : DataFrame) (key : cell)
    (entry : pystr * ANPR_Report_PDF) : Prop :=
  create_pdf_report (group mismatch_df SOURCE_COL key)
    (group full_df SOURCE_COL key) (display_name key) = Ok entry.2
  ∧ ∃ safe_source_name,
      secure_filename_of (display_name key) = Ok safe_source_name
      ∧ entry.1 = lit "ANPR_Report_" ++ safe_source_name ++ lit ".pdf".

(** The sanitized name of a source: the name the report is filed under,
    before the fixed prefix and extension are added. *)
Definition sanitized (key : cell) : pystr :=
  match display_name key with
  | Str s => secure_filename s
  | _ => []
  end.

(** Every text that the report of its source draws for the row [r] of a
    cleaned worksheet is within Latin-1: the three texts of its line of the
    table, and the name its source is shown under in the title. *)
Definition encodable (columns_present : list pystr) (r : row) : bool :=
  forallb latin1 (table_texts columns_present r)
  && latin1 (py_str (display_name (r SOURCE_COL))).

(** A zero or unidentified sequence as the specification words it: null,
    empty after trimming, the trimmed literal [0], or [unidentified] after
    trimming without regard to case. *)
Definition zero_sequence_any_case (c : cell) : bool :=
  isnull c
  || bool_decide (strip (py_str c) = [])
  || bool_decide (strip (py_str c) = lit "0")
  || bool_decide (lower (strip (py_str c)) = lit "unidentified").

(** The same with [unidentified] spelled exactly so, and without the case
    of blank text. *)
Definition zero_sequence (c : cell) : bool :=
  isnull c
  || bool_decide (strip (py_str c) = lit "0")
  || bool_decide (strip (py_str c) = lit "unidentified").
End notions.

(** The source values of a frame's rows. *)
Definition sources (df : DataFrame) : list cell :=
  (λ r : row, r SOURCE_COL) <$> rows df.

(** The mismatch frame of a load, empty when the load failed. *)
Definition mismatch_of (l : loaded) : DataFrame :=
  match l with
  | Loaded mismatch_df _ _ => mismatch_df
  | Failed _ => {| columns := []; rows := [] |}
  end.

(** The archive a response carries, if any. *)
Definition archive_of (r : response) : option (list (pystr * ANPR_Report_PDF)) :=
  match r with
  | SendFile _ _ archive => Some archive
  | Redirect _ _ => None
  end.

(** The file names of the entries of that archive, in order. *)
Definition archive_names (r : response) : list pystr :=
  match r with
  | SendFile _ _ archive => archive.*1
  | Redirect _ _ => []
  end.

(** The file name, the total and the count of zero or unidentified
    sequences of each entry of that archive, in order. *)
Definition archive_zero_counts (r : response) : list (pystr * Z * Z) :=
  match r with
  | SendFile _ _ archive =>
      (λ entry : pystr * ANPR_Report_PDF,
         (entry.1, total_count entry.2, zero_seq_count entry.2)) <$> archive
  | Redirect _ _ => []
  end.

(** The exact quotient [100 * mismatch / total] printed with two decimals, a
    tie going to the even digit as in Python's own formatting. *)
Definition exact_percentage (mismatch total : Z) : pystr :=
  hundredths (round_half_even (100 * mismatch * 100) total).

(** The value on the line labelled Mismatch Percentage, if the line is there. *)
Fixpoint find_percentage (items : list drawn) : option pystr :=
  match items with
  | [] => None
  | SummaryLine label value :: items' =>
      if bool_decide (label = lit "Mismatch Percentage:") then Some value
      else find_percentage items'
  | _ :: items' => find_percentage items'
  end.

Definition percentage_line (r : res ANPR_Report_PDF) : option pystr :=
  match r with
  | Ok pdf => find_percentage (content pdf)
  | Raise _ => None
  end.

(** ** Worksheets used as examples *)

Definition plate_row (sequence anpr tc source : cell) : row :=
  row_of [(SEQUENCE_COL, sequence); (ANPR_COL, anpr); (TC_COL, tc);
          (SOURCE_COL, source)].

Definition all_columns : list pystr := [SEQUENCE_COL; ANPR_COL; TC_COL; SOURCE_COL].

(** Three lanes: two near-mismatches on the first two, none on the third. *)
Definition sheet_lanes : DataFrame := {|
  columns := all_columns;
  rows := [
    plate_row (Int 1) (Str (lit "abc123")) (Str (lit "ABD123")) (Str (lit " Lane 1"));
    plate_row (Int 0) (Str (lit "XYZ987")) (Str (lit "XYZ987")) (Str (lit "Lane 1"));
    plate_row NaN (Str (lit "KA01AB1234")) (Str (lit "KA01AB123")) (Str (lit "Lane 2"));
    plate_row (Str (lit "unidentified")) (Str (lit "MH12")) (Str (lit "DL8C"))
      (Str (lit "Lane 3"))]
|}.

(** One near-mismatch, and only the three required columns. *)
Definition sheet_required_only : DataFrame := {|
  columns := [ANPR_COL; TC_COL; SOURCE_COL];
  rows := [row_of [(ANPR_COL, Str (lit "ABC123")); (TC_COL, Str (lit "ABD123"));
                   (SOURCE_COL, Str (lit "Lane 1"))]]
|}.

(** Four near-mismatches under four sources: two lanes whose names differ
    by a space against an underscore, a source of blank text, and the text
    NAN. *)
Definition sheet_colliding_sources : DataFrame := {|
  columns := all_columns;
  rows := [
    plate_row (Int 1) (Str (lit "ABC123")) (Str (lit "ABD123")) (Str (lit "Lane 1"));
    plate_row (Int 2) (Str (lit "XYZ987")) (Str (lit "XYZ98")) (Str (lit "Lane_1"));
    plate_row (Int 3) (Str (lit "KA01")) (Str (lit "KA02")) (Str (lit " "));
    plate_row (Int 4) (Str (lit "MH12")) (Str (lit "MH13")) (Str (lit "NAN"))]
|}.

(** One lane of three rows, the first a near-mismatch, whose sequences are
    blank text, the capitalised word, and the number zero. *)
Definition sheet_odd_sequences : DataFrame := {|
  columns := all_columns;
  rows := [
    plate_row (Str (lit " ")) (Str (lit "ABC123")) (Str (lit "ABD123"))
      (Str (lit "Lane 1"));
    plate_row (Str (lit "Unidentified")) (Str (lit "XYZ987")) (Str (lit "XYZ987"))
      (Str (lit "Lane 1"));
    plate_row (Int 0) (Str (lit "MH12")) (Str (lit "MH12")) (Str (lit "Lane 1"))]
|}.

(** One lane of two rows, the first a near-mismatch, with a sequence column
    that pandas read as numbers, so as floats: a zero and an empty cell. *)
Definition sheet_float_sequences : DataFrame := {|
  columns := all_columns;
  rows := [
    plate_row (Float (lit "0.0")) (Str (lit "ABC123")) (Str (lit "ABD123"))
      (Str (lit "Lane 1"));
    plate_row NaN (Str (lit "XYZ987")) (Str (lit "XYZ987")) (Str (lit "Lane 1"))]
|}.

(** The four columns and no row. *)
Definition sheet_header_only : DataFrame := {|
  columns := all_columns;
  rows := []
|}.

(** One near-mismatch whose first plate ends in the Greek capital omega,
    code point 937. *)
Definition sheet_omega : DataFrame := {|
  columns := all_columns;
  rows := [plate_row (Int 1) (Str (lit "ABC12" ++ [937%N])) (Str (lit "ABC123"))
             (Str (lit "Lane 1"))]
|}.

(** No source column. *)
Definition sheet_without_source : DataFrame := {|
  columns := [SEQUENCE_COL; ANPR_COL; TC_COL];
  rows := [row_of [(SEQUENCE_COL, Int 1); (ANPR_COL, Str (lit "ABC123"));
                   (TC_COL, Str (lit "ABD123"))]]
|}.

(** Two rows, neither a near-mismatch. *)
Definition sheet_all_match : DataFrame := {|
  columns := all_columns;
  rows := [
    plate_row (Int 1) (Str (lit "abc123")) (Str (lit "ABC123 ")) (Str (lit "Lane 1"));
    plate_row (Int 2) (Str (lit "AB")) (Str (lit "ABCD")) (Str (lit "Lane 2"))]
|}.

(** A report object about to print its summary. *)
Definition pdf_with_counts (total mismatch : Z) : ANPR_Report_PDF := {|
  report_title := Str (lit "Lane 1");
  total_count := total;
  mismatch_count := mismatch;
  zero_seq_count := 0;
  content := []
|}.

(** ** The request boundary (lines 22-25 and 279-357) *)

Definition ALLOWED_EXTENSIONS : list pystr := [lit "xlsx"; lit "xls"].

(** The code point of the full stop. *)
Definition dot : N := 46%N.

(** The two parts of [s] around its last [sep], if [sep] occurs in [s]. *)
Fixpoint rsplit_last (sep : N) (s : pystr) : option (pystr * pystr) :=
  match s with
  | [] => None
  | c :: s' =>
      match rsplit_last sep s' with
      | Some (before, after) => Some (c :: before, after)
      | None => if bool_decide (c = sep) then Some ([], s') else None
      end
  end.

(** [s.rsplit(sep, 1)] for a separator of one character *)
Definition rsplit (sep : N) (s : pystr) : list pystr :=
  match rsplit_last sep s with
  | Some (before, after) => [before; after]
  | None => [s]
  end.

(** [parts[i]] on a list, for [i >= 0] *)
Definition list_getitem (parts : list pystr) (i : nat) : res pystr :=
  match parts !! i with
  | Some part => Ok part
  | None => Raise (IndexError (lit "list index out of range"))
  end.

(** An uploaded file: its name, and what [pd.read_excel] gives for its
    stream. *)
Record FileStorage := {
  filename : pystr;
  stream : res DataFrame
}.

(** What the route answers: the page of the form with a flashed message, or
    the archive as an attachment under a download name. *)
Inductive reply :=
  | Page (message category : pystr)
  | Attachment (message category : pystr)
      (archive : list (pystr * ANPR_Report_PDF)) (download_name : pystr).

Section boundary.
Context `{Runtime}.

(** Lines 22-25. The second operand of [and] is evaluated only when the
    first holds. *)
Definition allowed_file (filename : pystr) : res bool :=
  if bool_decide (dot ∈ filename) then
    extension ← list_getitem (rsplit dot filename) 1;
    Ok (bool_decide (lower extension ∈ ALLOWED_EXTENSIONS))
  else Ok false.

(** Lines 338-340, inside the [try] block. *)
Definition output_zip_filename (filename : pystr) : res pystr :=
  stem ← list_getitem (rsplit dot filename) 0;
  let base_name := secure_filename stem in
  Ok (lit "ANPR_Reports_Grouped_By_Source_" ++ base_name ++ lit ".zip").

(** The whole of [upload_file] (lines 280-357): [files] is the entry
    [excel_file] of [request.files], if the request has one. [upload_file]
    above is its [try] block up to the choice of the download name. A raise
    outside the [try] block is not caught. *)
Definition upload_file_request (files : option FileStorage) : res reply :=
  match files with
  | None => Ok (Page (lit "No file part in the request.") (lit "error"))
  | Some file =>
      if bool_decide (filename file = []) then
        Ok (Page (lit "No selected file.") (lit "error"))
      else
        allowed ← (if bool_decide (filename file ≠ []) then allowed_file (filename file)
                   else Ok false);
        if (allowed : bool) then
          match upload_file (stream file) with
          | Redirect message category => Ok (Page message category)
          | SendFile message category archive =>
              match output_zip_filename (filename file) with
              | Ok download_name =>
                  Ok (Attachment message category archive download_name)
              | Raise e =>
                  Ok (Page
                        (lit "An unexpected error occurred during processing or report generation: "
                           ++ exn_str e) (lit "error"))
              end
          end
        else
          Ok (Page (lit "Invalid file type. Only .xlsx and .xls are allowed.")
                (lit "error"))
  end.
End boundary.

(** ** Further notions used to state the properties *)

(** Replacing one character by a different one turns [a] into [b]. *)
Definition one_substitution (a b : pystr) : Prop :=
  ∃ before x y after,
    x ≠ y ∧ a = before ++ x :: after ∧ b = before ++ y :: after.

(** The thing drawn is a row of the table. *)
Definition is_data_row (d : drawn) : bool :=
  match d with
  | DataRow _ _ _ => true
  | _ => false
  end.

(** The texts of the footers among the things drawn, in order: one for each
    page. *)
Definition footers (items : list drawn) : list pystr :=
  omap (λ d, match d with Footer text => Some text | _ => None end) items.

(** The footers of a report, none when it is not built. *)
Definition report_footers (r : res ANPR_Report_PDF) : list pystr :=
  match r with
  | Ok pdf => footers (content pdf)
  | Raise _ => []
  end.

(** Every text of the things drawn is within Latin-1. *)
Definition in_latin1 (items : list drawn) : bool :=
  forallb latin1 (concat (texts_of <$> items)).

(** A worksheet like [sheet_lanes] without the two image columns and with a
    column of remarks. *)
Definition sheet_remarks : DataFrame := {|
  columns := all_columns ++ [lit "remark"];
  rows := [
    row_of [(lit "remark", Str (lit " keep me ")); (SEQUENCE_COL, Int 7);
            (ANPR_COL, Str (lit " ka01ab1234 ")); (TC_COL, Str (lit "KA01AB123"));
            (SOURCE_COL, Str (lit " Gate A "))];
    row_of [(lit "remark", Int 3); (SEQUENCE_COL, Int 8);
            (ANPR_COL, Str (lit "MH12")); (TC_COL, Str (lit "MH12"));
            (SOURCE_COL, Str (lit "Gate B"))]]
|}.

(** One lane with [n] rows, each the same near-mismatch. *)
Definition sheet_of_rows (n : nat) : DataFrame := {|
  columns := all_columns;
  rows := replicate n (plate_row (Int 1) (Str (lit "ABC123")) (Str (lit "ABD123"))
                         (Str (lit "Lane 1")))
|}.

(** An upload of [sheet_lanes] under a name with two full stops. *)
Definition upload_lanes : FileStorage := {|
  filename := lit "week 12.final.XLSX";
  stream := Ok sheet_lanes
|}.

(** * Properties *)

(** ** The classifier *)

Lemma getitem_lookup s i c : s !! i = Some c → getitem s i = Ok c.
Proof. unfold getitem. by intros ->. Qed.

Lemma count_mismatches_spec s1 s2 indices acc :
  Forall (λ i, i < length s1 ∧ i < length s2)%nat indices →
  count_mismatches s1 s2 indices acc
  = Ok (acc + Z.of_nat (length (differing s1 s2 indices))).
Proof.
  intros Hin. revert acc.
  induction Hin as [|i indices [H1 H2] _ IH]; intros acc; simpl.
  - f_equal. unfold differing. simpl. lia.
  - destruct (lookup_lt_is_Some_2 s1 i H1) as [c1 Hc1].
    destruct (lookup_lt_is_Some_2 s2 i H2) as [c2 Hc2].
    rewrite (getitem_lookup _ _ _ Hc1), (getitem_lookup _ _ _ Hc2). simpl.
    rewrite IH. unfold differing. rewrite filter_cons.
    case_bool_decide as Hc; case_decide as Hs; simpl.
    + f_equal. lia.
    + congruence.
    + congruence.
    + done.
Qed.

Lemma range_in_bounds (s1 s2 : pystr) :
  length s1 = length s2 →
  Forall (λ i, i < length s1 ∧ i < length s2)%nat (range (length s1)).
Proof.
  intros Hlen. apply Forall_forall. intros i Hi.
  apply elem_of_seq in Hi. lia.
Qed.

Lemma hamming_refl s : hamming s s = 0%nat.
Proof.
  unfold hamming, differing. induction (seq 0 (length s)) as [|i l IH]; [done|].
  rewrite filter_cons. by case_decide.
Qed.

Lemma try_deletions_spec s1 s2 indices :
  try_deletions s1 s2 indices = true ↔ ∃ k, k ∈ indices ∧ delete_at k s1 = s2.
Proof.
  induction indices as [|k indices IH]; simpl.
  - split; [done|]. intros (k & Hk & _). by apply elem_of_nil in Hk.
  - unfold delete_at in *. rewrite Nat.add_1_r. case_bool_decide as Hk.
    + split; [|done]. intros _. exists k. split; [left|done].
    + rewrite IH. split.
      * intros (k' & Hk' & Heq). exists k'. split; [by right|done].
      * intros (k' & Hk' & Heq). apply elem_of_cons in Hk' as [->|Hk']; [done|].
        by exists k'.
Qed.

Lemma try_deletions_range longer shorter :
  try_deletions longer shorter (range (length longer)) = true
  ↔ one_deletion longer shorter.
Proof.
  rewrite try_deletions_spec. unfold one_deletion, range.
  split; intros (k & Hk & Heq); exists k; (split; [|done]).
  - apply elem_of_seq in Hk. lia.
  - apply elem_of_seq. lia.
Qed.

Lemma one_deletion_length longer shorter :
  one_deletion longer shorter → length longer = S (length shorter).
Proof.
  intros (k & Hk & <-). unfold delete_at.
  rewrite length_app, length_take, length_drop. lia.
Qed.

Section classifier_facts.
Context `{Runtime}.

Lemma check_on_equal_length (a b : pystr) :
  length (strip a) = length (strip b) →
  check_exactly_one_mismatch_or_missing a b
  = Ok (bool_decide (hamming (strip a) (strip b) = 1%nat)).
Proof.
  intros Hlen. unfold check_exactly_one_mismatch_or_missing, len.
  case_bool_decide as Heq.
  - rewrite Heq, hamming_refl. done.
  - case_bool_decide; [|lia].
    rewrite count_mismatches_spec by (by apply range_in_bounds).
    simpl. f_equal. unfold hamming, range. apply bool_decide_ext. lia.
Qed.

Lemma check_on_unequal_length (a b : pystr) :
  length (strip a) ≠ length (strip b) →
  check_exactly_one_mismatch_or_missing a b
  = Ok (if bool_decide (Z.abs (len (strip a) - len (strip b)) = 1) then
          if bool_decide (len (strip a) < len (strip b))
          then try_deletions (strip b) (strip a) (range (length (strip b)))
          else try_deletions (strip a) (strip b) (range (length (strip a)))
        else false).
Proof.
  intros Hlen. unfold check_exactly_one_mismatch_or_missing, len.
  rewrite bool_decide_eq_false_2 by congruence.
  case_bool_decide; [lia|].
  repeat case_bool_decide; done.
Qed.

Lemma check_total (a b : pystr) :
  ∃ r, check_exactly_one_mismatch_or_missing a b = Ok r.
Proof.
  destruct (decide (length (strip a) = length (strip b))) as [Hlen|Hlen].
  - eexists. by apply check_on_equal_length.
  - eexists. by apply check_on_unequal_length.
Qed.

(** C1. On two strings that have the same length once trimmed, the
    classifier returns, and returns true exactly when the trimmed strings
    differ at exactly one position; on a string and itself it returns
    false. *)
Theorem check_equal_length_hamming (a b : pystr) :
  length (strip a) = length (strip b) →
  check_exactly_one_mismatch_or_missing a b
    = Ok (bool_decide (hamming (strip a) (strip b) = 1%nat))
  ∧ check_exactly_one_mismatch_or_missing a a = Ok false.
Proof.
  intros Hlen. split; [by apply check_on_equal_length|].
  by rewrite check_on_equal_length, hamming_refl.
Qed.

(** C2. On two strings whose trimmed lengths differ, the classifier
    returns. When one trimmed string is one character longer than the
    other, the result is true exactly when deleting the character at some
    position of the longer one gives the shorter one; when the lengths
    differ by two or more, the result is false. *)
Theorem check_length_differs (a b : pystr) :
  length (strip a) ≠ length (strip b) →
  ∃ r, check_exactly_one_mismatch_or_missing a b = Ok r
    ∧ (length (strip a) = S (length (strip b)) →
         r = true ↔ one_deletion (strip a) (strip b))
    ∧ (length (strip b) = S (length (strip a)) →
         r = true ↔ one_deletion (strip b) (strip a))
    ∧ (2 ≤ Z.abs (len (strip a) - len (strip b)) → r = false).
Proof.
  intros Hlen. eexists. split; [by apply check_on_unequal_length|].
  unfold len. split_and!.
  - intros Ha. rewrite bool_decide_eq_true_2, bool_decide_eq_false_2 by lia.
    apply try_deletions_range.
  - intros Hb. rewrite !bool_decide_eq_true_2 by lia.
    apply try_deletions_range.
  - intros Hfar. by rewrite bool_decide_eq_false_2 by lia.
Qed.

(** C10. The classifier is symmetric in its two arguments. *)
Theorem check_symmetric (a b : pystr) :
  check_exactly_one_mismatch_or_missing a b
  = check_exactly_one_mismatch_or_missing b a.
Proof.
  destruct (decide (length (strip a) = length (strip b))) as [Hlen|Hlen].
  - rewrite !check_on_equal_length by done. f_equal.
    unfold hamming, differing. rewrite Hlen. apply bool_decide_ext.
    erewrite list_filter_iff; [done|]. intros i. split; congruence.
  - rewrite !check_on_unequal_length by done. unfold len. f_equal.
    repeat case_bool_decide; try lia; done.
Qed.
End classifier_facts.

(** ** The loader *)

Lemma select_fmap (f : row → bool) (rs : list row) :
  select rs (f <$> rs) = filter (λ r, f r = true) rs.
Proof.
  induction rs as [|r rs IH]; [done|].
  rewrite fmap_cons. cbn [select]. rewrite IH, filter_cons.
  destruct (f r) eqn:Hf; case_decide; congruence.
Qed.

Lemma required_columns_distinct :
  ANPR_COL ≠ TC_COL ∧ ANPR_COL ≠ SOURCE_COL ∧ TC_COL ≠ SOURCE_COL.
Proof. by vm_compute. Qed.

Lemma bind_ok {A B} (a : A) (f : A → res B) : (Ok a ≫= f) = f a.
Proof. done. Qed.

Lemma map_column_ok col f df :
  col ∈ columns df →
  map_column col f df
  = Ok {| columns := columns df;
          rows := (λ r : row, <[col := f (r col)]> r) <$> rows df |}.
Proof. intros Hcol. unfold map_column. by rewrite bool_decide_eq_true_2. Qed.

Section loader_facts.
Context `{Runtime}.

Lemma for_each_near_mismatch (rs : list row) :
  for_each (λ r : row, check_exactly_one_mismatch_or_missing
                         (py_str (r ANPR_COL)) (py_str (r TC_COL))) rs
  = Ok (near_mismatch <$> rs).
Proof.
  induction rs as [|r rs IH]; [done|].
  cbn [for_each]. rewrite IH, fmap_cons. unfold near_mismatch.
  by destruct (check_total (py_str (r ANPR_COL)) (py_str (r TC_COL))) as [b ->].
Qed.

Lemma cleaned_source (r : row) :
  cleaned r SOURCE_COL = Str (strip (py_str (r SOURCE_COL))).
Proof.
  destruct required_columns_distinct as (_ & ? & ?).
  unfold cleaned. rewrite fn_lookup_insert.
  by rewrite !fn_lookup_insert_ne by done.
Qed.

(** The loader on a frame that has the three required columns. *)
Lemma apply_rows_near_mismatch (df : DataFrame) :
  apply_rows (λ r : row, check_exactly_one_mismatch_or_missing
                           (py_str (r ANPR_COL)) (py_str (r TC_COL))) df
  = Ok (if bool_decide (rows df = []) then None else Some (near_mismatch <$> rows df)).
Proof.
  unfold apply_rows. destruct (rows df) as [|r rs] eqn:Hrows; [done|].
  by rewrite for_each_near_mismatch, bind_ok.
Qed.

(** The loader on a frame that has the three required columns. The
    mismatch frame of a frame without rows has no column. *)
Lemma process_excel_data_try_ok (df : DataFrame) :
  ANPR_COL ∈ columns df → TC_COL ∈ columns df → SOURCE_COL ∈ columns df →
  process_excel_data_try (Ok df)
  = let full_df := {| columns := columns df; rows := cleaned <$> rows df |} in
    let mismatch_df :=
      {| columns := if bool_decide (rows full_df = []) then [] else columns df;
         rows := filter (λ r, near_mismatch r = true) (rows full_df) |} in
    Ok (mismatch_df, len (rows mismatch_df), full_df).
Proof.
  intros Ha Ht Hs. unfold process_excel_data_try. rewrite bind_ok.
  rewrite !bool_decide_eq_false_2 by (by intros []). cbn [orb].
  rewrite map_column_ok, bind_ok by done.
  rewrite map_column_ok, bind_ok by done.
  rewrite map_column_ok, bind_ok by done.
  rewrite apply_rows_near_mismatch, bind_ok. cbn [rows columns].
  assert (((λ r : row, <[SOURCE_COL := Str (strip (py_str (r SOURCE_COL)))]> r)
             <$> ((λ r : row, <[TC_COL := Str (upper (strip (py_str (r TC_COL))))]> r)
                    <$> ((λ r : row,
                            <[ANPR_COL := Str (upper (strip (py_str (r ANPR_COL))))]> r)
                           <$> rows df)))
          = cleaned <$> rows df) as ->
    by (by rewrite <- !list_fmap_compose).
  case_bool_decide as Hrows.
  - unfold getitem_series. cbn [rows]. by rewrite Hrows.
  - unfold getitem_series, boolean_index. cbn [rows columns]. by rewrite select_fmap.
Qed.

Lemma process_excel_data_try_missing (df : DataFrame) :
  ANPR_COL ∉ columns df ∨ TC_COL ∉ columns df ∨ SOURCE_COL ∉ columns df →
  process_excel_data_try (Ok df) = Raise (ValueError missing_columns_message).
Proof.
  intros Hmiss. unfold process_excel_data_try. simpl.
  destruct Hmiss as [?|[?|?]]; repeat case_bool_decide; done.
Qed.

Lemma process_excel_data_ok (df : DataFrame) :
  ANPR_COL ∈ columns df → TC_COL ∈ columns df → SOURCE_COL ∈ columns df →
  process_excel_data (Ok df)
  = Loaded
      {| columns := if bool_decide (cleaned <$> rows df = []) then [] else columns df;
         rows := filter (λ r, near_mismatch r = true) (cleaned <$> rows df) |}
      (len (filter (λ r, near_mismatch r = true) (cleaned <$> rows df)))
      {| columns := columns df; rows := cleaned <$> rows df |}.
Proof.
  intros Ha Ht Hs. unfold process_excel_data.
  by rewrite process_excel_data_try_ok.
Qed.

(** Whatever was loaded came from a frame with the required columns, cleaned
    and filtered by the classifier. *)
Lemma process_excel_data_loaded sheet mismatch_df count full_df :
  process_excel_data sheet = Loaded mismatch_df count full_df →
  ∃ df, sheet = Ok df
    ∧ ANPR_COL ∈ columns df ∧ TC_COL ∈ columns df ∧ SOURCE_COL ∈ columns df
    ∧ full_df = {| columns := columns df; rows := cleaned <$> rows df |}
    ∧ mismatch_df
      = {| columns := if bool_decide (rows full_df = []) then [] else columns df;
           rows := filter (λ r, near_mismatch r = true) (rows full_df) |}
    ∧ count = len (rows mismatch_df).
Proof.
  unfold process_excel_data. intros Hload.
  destruct sheet as [df|e]; [|by destruct e].
  exists df. split; [done|].
  destruct (decide (ANPR_COL ∈ columns df)) as [Ha|Ha];
    [|by rewrite process_excel_data_try_missing in Hload by auto].
  destruct (decide (TC_COL ∈ columns df)) as [Ht|Ht];
    [|by rewrite process_excel_data_try_missing in Hload by auto].
  destruct (decide (SOURCE_COL ∈ columns df)) as [Hs|Hs];
    [|by rewrite process_excel_data_try_missing in Hload by auto].
  rewrite process_excel_data_try_ok in Hload by done.
  simpl in Hload. by simplify_eq.
Qed.
End loader_facts.

(** ** Grouping *)

Lemma elem_of_sorted_keys (key : cell) (values : list cell) :
  key ∈ sorted_keys values ↔ key ∈ values ∧ isnull key = false.
Proof.
  unfold sorted_keys. rewrite merge_sort_Permutation, elem_of_remove_dups.
  rewrite list_elem_of_filter. tauto.
Qed.

Lemma length_sorted_keys (values : list cell) :
  Forall (λ k, isnull k = false) values →
  length (sorted_keys values) = length (remove_dups values).
Proof.
  intros Hvalues. unfold sorted_keys.
  rewrite merge_sort_Permutation. f_equal. f_equal.
  induction Hvalues as [|k values Hk _ IH]; [done|].
  rewrite filter_cons. case_decide; [by rewrite IH|done].
Qed.

Lemma getcol_ok df col :
  col ∈ columns df → getcol df col = Ok ((λ r : row, r col) <$> rows df).
Proof. intros Hcol. unfold getcol. by rewrite bool_decide_eq_true_2. Qed.

Lemma groupby_ok df col :
  col ∈ columns df →
  groupby df col
  = Ok ((λ key, (key, group df col key))
          <$> sorted_keys ((λ r : row, r col) <$> rows df)).
Proof. intros Hcol. unfold groupby. by rewrite getcol_ok. Qed.

Lemma get_group_ok (make : cell → DataFrame) (keys : list cell) (name : cell) :
  name ∈ keys → get_group ((λ key, (key, make key)) <$> keys) name = Ok (make name).
Proof.
  induction keys as [|key keys IH]; intros Hin.
  - by apply elem_of_nil in Hin.
  - rewrite fmap_cons. cbn [get_group]. case_bool_decide as Hkey; [by subst|].
    apply IH. apply elem_of_cons in Hin as [->|Hin]; done.
Qed.

Lemma filter_sublist_mono {A} (P : A → Prop) `{∀ x, Decision (P x)} (l1 l2 : list A) :
  l1 `sublist_of` l2 → filter P l1 `sublist_of` filter P l2.
Proof.
  induction 1 as [|x l1 l2 _ IH|x l1 l2 _ IH]; [done| |].
  - rewrite !filter_cons. case_decide; [by constructor|done].
  - rewrite filter_cons. case_decide; [by constructor|done].
Qed.

Lemma length_group_le (m f : list row) col key :
  m `sublist_of` f →
  (length (filter (λ r : row, r col = key) m)
   ≤ length (filter (λ r : row, r col = key) f))%nat.
Proof. intros Hsub. by apply sublist_length, filter_sublist_mono. Qed.

(** ** The report *)

Lemma draw_draw pdf items items' :
  draw (draw pdf items) items' = draw pdf (items ++ items').
Proof. unfold draw. simpl. by rewrite app_assoc. Qed.

Lemma truediv_ok (a b : Z) :
  b ≠ 0 → truediv a b = Ok (PrimFloat.div (float_of_int a) (float_of_int b)).
Proof. intros Hb. unfold truediv. by rewrite bool_decide_eq_false_2. Qed.

(** The division the summary guards against. *)
Lemma truediv_by_zero (a : Z) :
  truediv a 0 = Raise (ZeroDivisionError (lit "division by zero")).
Proof. done. Qed.

Lemma latin1_lit (s : string) : latin1 (lit s) = true.
Proof.
  unfold latin1, lit. induction (list_ascii_of_string s) as [|a l IH]; [done|].
  rewrite fmap_cons. cbn [forallb]. rewrite IH, andb_true_r.
  apply N.ltb_lt, N_ascii_bounded.
Qed.

Lemma latin1_app (a b : pystr) : latin1 (a ++ b) = latin1 a && latin1 b.
Proof. apply forallb_app. Qed.

Lemma latin1_decimal (z : Z) : latin1 (decimal z) = true.
Proof. apply latin1_lit. Qed.

Lemma latin1_format_2f (x : float) : latin1 (format_2f x) = true.
Proof.
  unfold format_2f, hundredths.
  destruct (Prim2SF x) as [[]|[]| |[] m e];
    rewrite ?latin1_app, ?latin1_decimal, ?latin1_lit; done.
Qed.

Lemma in_latin1_app (a b : list drawn) : in_latin1 (a ++ b) = in_latin1 a && in_latin1 b.
Proof. unfold in_latin1. by rewrite fmap_app, concat_app, forallb_app. Qed.

Lemma in_latin1_cons (d : drawn) (items : list drawn) :
  in_latin1 (d :: items) = forallb latin1 (texts_of d) && in_latin1 items.
Proof. unfold in_latin1. by rewrite fmap_cons, concat_cons, forallb_app. Qed.

Lemma draw_nil pdf : draw pdf [] = pdf.
Proof. destruct pdf. unfold draw. cbn. by rewrite app_nil_r. Qed.

Lemma forallb_Forall {A} (f : A → bool) (l : list A) :
  forallb f l = true ↔ Forall (λ x, f x = true) l.
Proof.
  induction l as [|x l IH]; cbn [forallb]; [by split|].
  rewrite andb_true_iff, Forall_cons, IH. done.
Qed.

Section report_facts.
Context `{Runtime}.

Lemma print_summary_ok pdf :
  print_summary pdf
  = Ok (draw pdf (summary_lines (total_count pdf) (mismatch_count pdf)
                    (zero_seq_count pdf))).
Proof.
  unfold print_summary, summary_lines. cbn [draw total_count mismatch_count zero_seq_count].
  case_bool_decide as Htotal.
  - rewrite truediv_ok, bind_ok by lia. rewrite !draw_draw. done.
  - rewrite !draw_draw. done.
Qed.

Lemma summary_lines_in_latin1 total mismatch zero :
  in_latin1 (summary_lines total mismatch zero) = true.
Proof.
  unfold summary_lines. rewrite in_latin1_app.
  case_bool_decide; rewrite ?in_latin1_cons; cbn [texts_of forallb];
    rewrite ?latin1_app, ?latin1_format_2f, ?latin1_decimal, ?latin1_lit; done.
Qed.

Lemma summary_lines_no_data_row total mismatch zero :
  filter (λ d, is_data_row d = true) (summary_lines total mismatch zero) = [].
Proof. unfold summary_lines. by case_bool_decide. Qed.

(** What a new page draws: at most a footer, and the title. *)
Lemma add_page_draws (self : document) :
  ∃ items,
    (add_page self).1 = draw self.1 items
    ∧ filter (λ d, is_data_row d = true) items = []
    ∧ in_latin1 items = latin1 (py_str (report_title self.1)).
Proof.
  unfold add_page, header, footer. case_bool_decide; cbn [fst snd].
  - rewrite draw_draw. eexists. split; [reflexivity|]. split; [done|].
    rewrite in_latin1_app, !in_latin1_cons. cbn [texts_of forallb report_title draw].
    rewrite !latin1_app, latin1_decimal, !latin1_lit. unfold in_latin1. cbn.
    by rewrite ?andb_true_r.
  - eexists. split; [reflexivity|]. split; [done|].
    rewrite !in_latin1_cons. cbn [texts_of forallb].
    rewrite !latin1_app, !latin1_lit. unfold in_latin1. cbn.
    by rewrite ?andb_true_r.
Qed.

Lemma print_header_row_draws (self : document) :
  ∃ items,
    (print_header_row self).1 = draw self.1 items
    ∧ filter (λ d, is_data_row d = true) items = []
    ∧ in_latin1 items = true.
Proof.
  unfold print_header_row. cbn [fst]. eexists. split; [reflexivity|]. split; [done|].
  rewrite in_latin1_cons. cbn [texts_of forallb]. by rewrite !latin1_lit.
Qed.

Lemma text_columns : take 3 COLUMNS_TO_KEEP = [SEQUENCE_COL; ANPR_COL; TC_COL].
Proof. done. Qed.

Lemma texts_of_data_row cols (r : row) :
  forallb latin1 (texts_of (data_row cols r)) = forallb latin1 (table_texts cols r).
Proof.
  unfold data_row, table_texts. cbn [texts_of]. rewrite !forallb_app.
  rewrite text_columns.
  assert (∀ data key,
            forallb latin1
              match insert_image_cell data key with
              | Image _ => []
              | ImageNotFound => [lit "Image Not Found"]
              | ImageLoadError => [lit "Image Load Error"]
              end = true) as Himage.
  { intros data key. destruct (insert_image_cell data key); cbn [forallb];
      rewrite ?latin1_lit; done. }
  rewrite !Himage, !andb_true_r. reflexivity.
Qed.


(** What [add_data_row] draws: the furniture of a new page when the row
    starts one, and the row. *)
Lemma add_data_row_draws (self : document) (data : row) :
  ∃ items,
    (add_data_row self data).1
    = draw self.1
        (items ++ [DataRow ((λ col, py_str (data col)) <$> take 3 COLUMNS_TO_KEEP)
                     (insert_image_cell data (lit "image_path"))
                     (insert_image_cell data (lit "vehicle_image"))])
    ∧ filter (λ d, is_data_row d = true) items = []
    ∧ in_latin1 items && latin1 (py_str (report_title self.1))
      = latin1 (py_str (report_title self.1)).
Proof.
  unfold add_data_row. destruct (PrimFloat.ltb _ _).
  - destruct (add_page_draws self) as (page & Hpage & Hrows & Hlatin).
    destruct (print_header_row_draws (add_page self)) as (head & Hhead & Hrows' & Hlatin').
    exists (page ++ head). cbn [fst]. rewrite Hhead, Hpage, !draw_draw, <- app_assoc.
    split; [done|]. split; [by rewrite filter_app, Hrows, Hrows'|].
    rewrite in_latin1_app, Hlatin, Hlatin'. by destruct (latin1 _).
  - exists []. cbn [fst]. split; [done|]. split; [done|]. done.
Qed.

(** What the loop over the rows of the mismatch frame draws. *)
Lemma rows_drawn cols (self : document) (rs : list row) :
  ∃ items,
    (foldl
       (λ (pdf : document) (r : row),
          let row_dict := <[lit "image_path" := Str (py_str (r (lit "image_path")))]> r in
          let row_dict :=
            <[lit "vehicle_image" := Str (py_str (row_dict (lit "vehicle_image")))]> row_dict in
          add_data_row pdf row_dict)
       self
       ((λ (r : row) col, if bool_decide (col ∈ cols) then r col else Str []) <$> rs)).1
    = draw self.1 items
    ∧ filter (λ d, is_data_row d = true) items = data_row cols <$> rs
    ∧ in_latin1 items && latin1 (py_str (report_title self.1))
      = forallb (λ r, forallb latin1 (table_texts cols r)) rs
        && latin1 (py_str (report_title self.1)).
Proof.
  revert self. induction rs as [|r rs IH]; intros self.
  - exists []. by rewrite draw_nil.
  - rewrite fmap_cons. cbn [foldl].
    match goal with
    | |- context [foldl _ (add_data_row self ?d)] =>
        destruct (add_data_row_draws self d) as (pre & Hrow & Hpre & Hlatin);
        destruct (IH (add_data_row self d)) as (items & Hfold & Hitems & Hlatin')
    end.
    rewrite Hrow in Hfold, Hlatin'. rewrite draw_draw in Hfold.
    eexists. split; [exact Hfold|].
    cbn [report_title draw] in Hlatin'. split.
    + rewrite !filter_app, Hpre, Hitems. done.
    + rewrite !in_latin1_app, in_latin1_cons. cbn [forallb].
      change (DataRow _ _ _) with (data_row cols r).
      rewrite texts_of_data_row.
      destruct (forallb latin1 (table_texts cols r)), (in_latin1 pre),
        (latin1 (py_str (report_title self.1))), (in_latin1 items),
        (forallb _ rs); done.
Qed.

(** The report of a group whose full dataset has the sequence column: what
    is drawn holds the rows of the table and the summary, and the document
    is returned when all of it is within Latin-1, which depends on the title
    and the texts of the rows only. *)
Lemma create_pdf_report_cases df_mismatch df_full_source source_name :
  SEQUENCE_COL ∈ columns df_full_source →
  ∃ items,
    create_pdf_report df_mismatch df_full_source source_name
    = (if in_latin1 items
       then Ok {| report_title := source_name;
                  total_count := len (rows df_full_source);
                  mismatch_count := len (rows df_mismatch);
                  zero_seq_count :=
                    len (filter (λ c, zero_or_unidentified c = true)
                           ((λ r : row, r SEQUENCE_COL) <$> rows df_full_source));
                  content := items |}
       else Raise (UnicodeEncodeError (encoding_error (concat (texts_of <$> items)))))
    ∧ filter (λ d, is_data_row d = true) items
      = data_row (columns df_mismatch) <$> rows df_mismatch
    ∧ in_latin1 items
      = latin1 (py_str source_name)
        && forallb (λ r, forallb latin1 (table_texts (columns df_mismatch) r))
             (rows df_mismatch)
    ∧ summary_lines (len (rows df_full_source)) (len (rows df_mismatch))
        (len (filter (λ c, zero_or_unidentified c = true)
                ((λ r : row, r SEQUENCE_COL) <$> rows df_full_source)))
      ⊆ items.
Proof.
  intros Hseq. unfold create_pdf_report.
  rewrite getcol_ok, bind_ok by done. unfold reindex. cbn [rows].
  set (total := len (rows df_full_source)).
  set (mismatch := len (rows df_mismatch)).
  set (zero := len (filter _ _)).
  set (doc0 := ({| report_title := source_name; total_count := total;
                   mismatch_count := mismatch; zero_seq_count := zero;
                   content := [] |}, {| page_no := 0; get_y := 0 |}) : document).
  destruct (add_page_draws doc0) as (i1 & H1 & R1 & L1).
  set (doc1 := add_page doc0) in *.
  destruct (print_header_row_draws doc1) as (i2 & H2 & R2 & L2).
  set (doc2 := print_header_row doc1) in *.
  destruct (rows_drawn (columns df_mismatch) doc2 (rows df_mismatch))
    as (i3 & H3 & R3 & L3).
  match type of H3 with
  | (foldl ?f ?a ?l).1 = _ => set (doc3 := foldl f a l) in *
  end.
  assert (∃ i4, (if PrimFloat.ltb page_break_trigger (get_y doc3.2 + 50)%float
                 then add_page doc3 else doc3).1 = draw doc3.1 i4
                ∧ filter (λ d, is_data_row d = true) i4 = []
                ∧ in_latin1 i4 && latin1 (py_str (report_title doc3.1))
                  = latin1 (py_str (report_title doc3.1))) as (i4 & H4 & R4 & L4).
  { destruct (PrimFloat.ltb _ _).
    - destruct (add_page_draws doc3) as (i4 & ? & ? & Hl). exists i4.
      split_and!; [done..|]. rewrite Hl. apply andb_diag.
    - exists []. by rewrite draw_nil. }
  set (doc4 := if PrimFloat.ltb _ _ then _ else _) in *.
  rewrite print_summary_ok, bind_ok. unfold output, footer. cbn [fst snd].
  rewrite H4, H3, H2, H1, !draw_draw in *.
  cbn [doc0 fst draw content report_title total_count mismatch_count zero_seq_count
       app] in *.
  eexists. split; [reflexivity|]. split_and!.
  - rewrite !filter_app, R1, R2, R3, R4, summary_lines_no_data_row. cbn.
    by rewrite app_nil_r.
  - rewrite !in_latin1_app, L1, L2, summary_lines_in_latin1, in_latin1_cons.
    cbn [texts_of forallb]. rewrite latin1_app, latin1_decimal, latin1_lit.
    unfold in_latin1 at 3. cbn [fmap list_fmap concat forallb].
    destruct (latin1 (py_str source_name)), (in_latin1 i3), (in_latin1 i4),
      (forallb _ (rows df_mismatch)); done.
  - intros d Hd. rewrite !elem_of_app. tauto.
Qed.

Lemma create_pdf_report_missing df_mismatch df_full_source source_name :
  SEQUENCE_COL ∉ columns df_full_source →
  create_pdf_report df_mismatch df_full_source source_name
  = Raise (KeyError SEQUENCE_COL).
Proof.
  intros Hseq. unfold create_pdf_report, getcol.
  by rewrite bool_decide_eq_false_2.
Qed.

(** A report that is built. *)
Lemma create_pdf_report_fields df_mismatch df_full_source source_name pdf :
  create_pdf_report df_mismatch df_full_source source_name = Ok pdf →
  SEQUENCE_COL ∈ columns df_full_source
  ∧ report_title pdf = source_name
  ∧ total_count pdf = len (rows df_full_source)
  ∧ mismatch_count pdf = len (rows df_mismatch)
  ∧ filter (λ d, is_data_row d = true) (content pdf)
    = data_row (columns df_mismatch) <$> rows df_mismatch.
Proof.
  intros Hpdf.
  destruct (decide (SEQUENCE_COL ∈ columns df_full_source)) as [Hseq|Hseq];
    [|by rewrite create_pdf_report_missing in Hpdf].
  destruct (create_pdf_report_cases df_mismatch df_full_source source_name Hseq)
    as (items & Hcases & Hrows & _).
  rewrite Hpdf in Hcases. destruct (in_latin1 items); [|done].
  match type of Hcases with _ = Ok ?e => assert (pdf = e) as -> by congruence end.
  done.
Qed.

Lemma create_pdf_report_built df_mismatch df_full_source source_name pdf :
  create_pdf_report df_mismatch df_full_source source_name = Ok pdf →
  zero_seq_count pdf
  = len (filter (λ c, zero_or_unidentified c = true)
           ((λ r : row, r SEQUENCE_COL) <$> rows df_full_source))
  ∧ latin1 (py_str source_name) = true
  ∧ Forall (λ r, forallb latin1 (table_texts (columns df_mismatch) r) = true)
      (rows df_mismatch)
  ∧ summary_lines (total_count pdf) (mismatch_count pdf) (zero_seq_count pdf)
    ⊆ content pdf.
Proof.
  intros Hpdf.
  destruct (decide (SEQUENCE_COL ∈ columns df_full_source)) as [Hseq|Hseq];
    [|by rewrite create_pdf_report_missing in Hpdf].
  destruct (create_pdf_report_cases df_mismatch df_full_source source_name Hseq)
    as (items & Hcases & _ & Hlatin & Hsummary).
  rewrite Hpdf in Hcases. destruct (in_latin1 items); [|done].
  match type of Hcases with _ = Ok ?e => assert (pdf = e) as -> by congruence end.
  symmetry in Hlatin. apply andb_true_iff in Hlatin as [Htitle Hrows%forallb_Forall].
  done.
Qed.

(** The report is built when the full dataset of the group has the
    sequence column and the title and the texts of the rows are within
    Latin-1. *)
Lemma create_pdf_report_ok df_mismatch df_full_source source_name :
  SEQUENCE_COL ∈ columns df_full_source →
  latin1 (py_str source_name) = true →
  Forall (λ r, forallb latin1 (table_texts (columns df_mismatch) r) = true)
    (rows df_mismatch) →
  ∃ pdf, create_pdf_report df_mismatch df_full_source source_name = Ok pdf.
Proof.
  intros Hseq Htitle Hrows%forallb_Forall.
  destruct (create_pdf_report_cases df_mismatch df_full_source source_name Hseq)
    as (items & Hcases & _ & Hlatin & _).
  rewrite Htitle, Hrows in Hlatin. rewrite Hlatin in Hcases.
  eexists. exact Hcases.
Qed.

(** With the sequence column, a title or a text of a row outside Latin-1
    makes the encoding of the document fail. *)
Lemma create_pdf_report_encoding df_mismatch df_full_source source_name :
  SEQUENCE_COL ∈ columns df_full_source →
  ¬ (latin1 (py_str source_name) = true
     ∧ Forall (λ r, forallb latin1 (table_texts (columns df_mismatch) r) = true)
         (rows df_mismatch)) →
  ∃ texts,
    create_pdf_report df_mismatch df_full_source source_name
    = Raise (UnicodeEncodeError (encoding_error texts)).
Proof.
  intros Hseq Hnot.
  destruct (create_pdf_report_cases df_mismatch df_full_source source_name Hseq)
    as (items & Hcases & _ & Hlatin & _).
  destruct (in_latin1 items); [|by eauto].
  destruct Hnot. symmetry in Hlatin.
  by apply andb_true_iff in Hlatin as [Htitle Hrows%forallb_Forall].
Qed.
End report_facts.

(** ** The route *)

Section route_facts.
Context `{Runtime}.

Lemma display_name_Str (s : pystr) : ∃ s', display_name (Str s) = Str s'.
Proof. unfold display_name. case_match; eauto. Qed.

(** A run of the loop that ends normally has written one entry per group,
    each the report of its source. *)
Lemma report_loop_inv mismatch_df full_df full_keys keys zf n zf' n' :
  report_loop ((λ key, (key, group full_df SOURCE_COL key)) <$> full_keys)
    ((λ key, (key, group mismatch_df SOURCE_COL key)) <$> keys) zf n
  = Ok (zf', n') →
  keys ⊆ full_keys →
  ∃ entries, zf' = zf ++ entries ∧ n' = n + len keys
    ∧ Forall2 (report_of mismatch_df full_df) keys entries.
Proof.
  revert zf n. induction keys as [|key keys IH]; intros zf n Hloop Hsub.
  - cbn in Hloop. simplify_eq. exists []. by rewrite app_nil_r, Z.add_0_r.
  - rewrite fmap_cons in Hloop. cbn [report_loop] in Hloop.
    rewrite get_group_ok, bind_ok in Hloop by (apply Hsub; left).
    destruct (create_pdf_report _ _ _) as [pdf|] eqn:Hpdf; [|done].
    rewrite bind_ok in Hloop.
    destruct (secure_filename_of _) as [safe|] eqn:Hsafe; [|done].
    rewrite bind_ok in Hloop.
    apply IH in Hloop as (entries & -> & -> & Hall);
      [|by intros k Hk; apply Hsub; right].
    eexists (_ :: entries). split; [by rewrite <- app_assoc|].
    split; [unfold len; simpl; lia|].
    constructor; [|done]. split; [done|]. by exists safe.
Qed.

(** The loop ends normally when every group has its full counterpart, a
    text key and the sequence column, and a title and rows whose texts are
    within Latin-1. *)
Lemma report_loop_ok mismatch_df full_df full_keys keys zf n :
  keys ⊆ full_keys →
  Forall (λ key, ∃ s, key = Str s) keys →
  SEQUENCE_COL ∈ columns full_df →
  Forall (λ key,
            latin1 (py_str (display_name key)) = true
            ∧ Forall (λ r, forallb latin1 (table_texts (columns mismatch_df) r) = true)
                (rows (group mismatch_df SOURCE_COL key))) keys →
  ∃ entries,
    report_loop ((λ key, (key, group full_df SOURCE_COL key)) <$> full_keys)
      ((λ key, (key, group mismatch_df SOURCE_COL key)) <$> keys) zf n
    = Ok (zf ++ entries, n + len keys)
    ∧ length entries = length keys.
Proof.
  intros Hsub Hstr Hseq Hlatin. revert zf n Hsub Hlatin.
  induction Hstr as [|key keys [s ->] _ IH]; intros zf n Hsub Hlatin.
  - exists []. by rewrite app_nil_r, Z.add_0_r.
  - apply Forall_cons in Hlatin as [[Htitle Hrows] Hlatin].
    rewrite fmap_cons. cbn [report_loop].
    rewrite get_group_ok, bind_ok by (apply Hsub; left).
    destruct (create_pdf_report_ok (group mismatch_df SOURCE_COL (Str s))
                (group full_df SOURCE_COL (Str s)) (display_name (Str s)))
      as [pdf ->]; [done..|].
    rewrite bind_ok.
    destruct (display_name_Str s) as [s' ->]. cbn [secure_filename_of].
    rewrite bind_ok.
    edestruct IH as (entries & -> & Hlen);
      [by intros k Hk; apply Hsub; right|done|].
    eexists (_ :: entries). rewrite <- app_assoc. split; [|by simpl; rewrite Hlen].
    do 2 f_equal. unfold len. simpl. lia.
Qed.

(** The first group already stops the loop when the full frame has no
    sequence column. *)
Lemma report_loop_missing mismatch_df full_df full_keys key keys zf n :
  key ∈ full_keys →
  SEQUENCE_COL ∉ columns full_df →
  report_loop ((λ key, (key, group full_df SOURCE_COL key)) <$> full_keys)
    ((λ key, (key, group mismatch_df SOURCE_COL key)) <$> key :: keys) zf n
  = Raise (KeyError SEQUENCE_COL).
Proof.
  intros Hkey Hseq. rewrite fmap_cons. cbn [report_loop].
  rewrite get_group_ok, bind_ok by done.
  by rewrite create_pdf_report_missing.
Qed.
End route_facts.

Section pipeline_facts.
Context `{Runtime}.

Lemma sources_cleaned (rs : list row) :
  Forall (λ key, ∃ s, key = Str s) ((λ r : row, r SOURCE_COL) <$> (cleaned <$> rs)).
Proof.
  apply Forall_fmap, Forall_fmap, Forall_forall. intros r _. simpl.
  rewrite cleaned_source. eauto.
Qed.

(** The facts about a loaded pair of frames that the route relies on. *)
Lemma loaded_frames sheet mismatch_df count full_df :
  process_excel_data sheet = Loaded mismatch_df count full_df →
  columns mismatch_df
  = (if bool_decide (rows full_df = []) then [] else columns full_df)
  ∧ SOURCE_COL ∈ columns full_df
  ∧ rows mismatch_df `sublist_of` rows full_df
  ∧ Forall (λ key, ∃ s, key = Str s) (sources full_df)
  ∧ count = len (rows mismatch_df).
Proof.
  intros (df & -> & _ & _ & Hs & -> & -> & ->)%process_excel_data_loaded.
  cbn [rows columns]. split_and!; try done.
  - apply sublist_filter.
  - apply sources_cleaned.
Qed.

Lemma sources_sublist mismatch_df full_df :
  rows mismatch_df `sublist_of` rows full_df →
  sources mismatch_df `sublist_of` sources full_df.
Proof. apply fmap_sublist. Qed.

Lemma sorted_keys_subseteq mismatch_df full_df :
  rows mismatch_df `sublist_of` rows full_df →
  sorted_keys (sources mismatch_df) ⊆ sorted_keys (sources full_df).
Proof.
  intros Hsub%sources_sublist key [Hkey Hnull]%elem_of_sorted_keys.
  apply elem_of_sorted_keys. split; [|done]. by eapply elem_of_sublist.
Qed.

(** The route on a loaded, non-empty mismatch frame is the loop over its
    groups. *)
Lemma upload_file_try_loaded sheet mismatch_df count full_df :
  process_excel_data sheet = Loaded mismatch_df count full_df →
  rows mismatch_df ≠ [] →
  upload_file_try sheet
  = '(zf, total_pdf_count) ←
      report_loop
        ((λ key, (key, group full_df SOURCE_COL key)) <$> sorted_keys (sources full_df))
        ((λ key, (key, group mismatch_df SOURCE_COL key))
           <$> sorted_keys (sources mismatch_df)) [] 0;
    Ok (SendFile (found_message count total_pdf_count) (lit "success") zf).
Proof.
  intros Hload Hrows. unfold upload_file_try. rewrite Hload.
  destruct (loaded_frames _ _ _ _ Hload) as (Hcols & Hs & Hsub & _).
  rewrite bool_decide_eq_false_2 in Hcols
    by (intros Hnil; rewrite Hnil in Hsub; by apply sublist_nil_r in Hsub).
  unfold empty. rewrite !bool_decide_eq_false_2; [|done|].
  2:{ rewrite Hcols. intros Hnil. rewrite Hnil in Hs. by apply elem_of_nil in Hs. }
  cbn [orb]. rewrite !groupby_ok, !bind_ok by (by rewrite ?Hcols). done.
Qed.

Lemma upload_file_try_empty sheet mismatch_df count full_df :
  process_excel_data sheet = Loaded mismatch_df count full_df →
  rows mismatch_df = [] →
  upload_file_try sheet = Ok (Redirect no_mismatch_message (lit "success")).
Proof.
  intros Hload Hrows. unfold upload_file_try. rewrite Hload.
  unfold empty. rewrite Hrows. rewrite (bool_decide_eq_true_2 ([] = [])) by done.
  by rewrite orb_true_r.
Qed.

(** A response that carries an archive comes from a loaded sheet with at
    least one mismatch row, and holds the reports of the mismatch groups. *)
Lemma upload_file_sends sheet message category archive :
  upload_file sheet = SendFile message category archive →
  ∃ mismatch_df count full_df,
    process_excel_data sheet = Loaded mismatch_df count full_df
    ∧ rows mismatch_df ≠ []
    ∧ Forall2 (report_of mismatch_df full_df)
        (sorted_keys (sources mismatch_df)) archive
    ∧ message = found_message count (len archive)
    ∧ category = lit "success".
Proof.
  unfold upload_file. intros Hsend.
  destruct (upload_file_try sheet) as [r|e] eqn:Htry; [subst r|done].
  destruct (process_excel_data sheet) as [m n f|msg] eqn:Hload.
  2:{ unfold upload_file_try in Htry. by rewrite Hload in Htry. }
  destruct (decide (rows m = [])) as [Hrows|Hrows].
  { by rewrite (upload_file_try_empty _ _ _ _ Hload Hrows) in Htry. }
  rewrite (upload_file_try_loaded _ _ _ _ Hload Hrows) in Htry.
  destruct (report_loop _ _ _ _) as [[zf total]|] eqn:Hloop; [|done].
  cbn in Htry. simplify_eq.
  destruct (loaded_frames _ _ _ _ Hload) as (_ & _ & Hsub & _).
  apply report_loop_inv in Hloop as (entries & -> & -> & Hall);
    [|by apply sorted_keys_subseteq].
  exists m, n, f. split_and!; try done.
  unfold len. by rewrite app_nil_l, (Forall2_length _ _ _ Hall), Z.add_0_l.
Qed.
End pipeline_facts.

Lemma filter_fmap {A B} (f : A → B) (P : B → Prop) `{∀ y, Decision (P y)}
    (l : list A) :
  filter P (f <$> l) = f <$> filter (λ x, P (f x)) l.
Proof.
  induction l as [|x l IH]; [done|].
  rewrite fmap_cons, !filter_cons, IH. by case_decide.
Qed.

Lemma length_remove_dups_fmap {A B} `{EqDecision A, EqDecision B}
    (f : A → B) (l : list A) :
  (∀ x y, x ∈ l → y ∈ l → f x = f y → x = y) →
  length (remove_dups (f <$> l)) = length (remove_dups l).
Proof.
  induction l as [|x l IH]; intros Hinj; [done|].
  rewrite fmap_cons. cbn [remove_dups].
  assert (length (remove_dups (f <$> l)) = length (remove_dups l)) as IH'.
  { apply IH. intros y z Hy Hz. apply Hinj; by right. }
  destruct (decide_rel elem_of (f x) (f <$> l)) as [Hfx|Hfx],
    (decide_rel elem_of x l) as [Hx|Hx]; simpl; rewrite ?IH'; try done.
  - apply list_elem_of_fmap in Hfx as (y & Hfy & Hy).
    apply Hinj in Hfy; [by subst|by left|by right].
  - destruct Hfx. by apply list_elem_of_fmap_2.
Qed.

Lemma length_remove_dups_fmap_le {A B} `{EqDecision A, EqDecision B}
    (f : A → B) (l : list A) :
  (length (remove_dups (f <$> l)) ≤ length (remove_dups l))%nat.
Proof.
  induction l as [|x l IH]; [done|].
  rewrite fmap_cons. cbn [remove_dups].
  destruct (decide_rel elem_of (f x) (f <$> l)) as [Hfx|Hfx],
    (decide_rel elem_of x l) as [Hx|Hx]; cbn [length]; try lia.
  destruct Hfx. by apply list_elem_of_fmap_2.
Qed.

(** Mapping a list loses no distinct value exactly when the function tells
    the elements of the list apart. *)
Lemma length_remove_dups_fmap_iff {A B} `{EqDecision A, EqDecision B}
    (f : A → B) (l : list A) :
  length (remove_dups (f <$> l)) = length (remove_dups l)
  ↔ ∀ x y, x ∈ l → y ∈ l → f x = f y → x = y.
Proof.
  split; [|apply length_remove_dups_fmap].
  induction l as [|x l IH]; intros Hlen y z Hy Hz Hyz.
  { by apply elem_of_nil in Hy. }
  rewrite fmap_cons in Hlen. cbn [remove_dups] in Hlen.
  pose proof (length_remove_dups_fmap_le f l) as Hle.
  destruct (decide_rel elem_of (f x) (f <$> l)) as [Hfx|Hfx],
    (decide_rel elem_of x l) as [Hx|Hx]; cbn [length] in Hlen; try lia.
  - apply IH; [done| | |done].
    + apply elem_of_cons in Hy as [->|?]; done.
    + apply elem_of_cons in Hz as [->|?]; done.
  - destruct Hfx. by apply list_elem_of_fmap_2.
  - apply elem_of_cons in Hy as [->|Hy], Hz as [->|Hz]; [done|..].
    + destruct Hfx. rewrite Hyz. by apply list_elem_of_fmap_2.
    + destruct Hfx. rewrite <- Hyz. by apply list_elem_of_fmap_2.
    + apply IH; [lia|done..].
Qed.

(** ** Properties of the pipeline *)

Section pipeline_properties.
Context `{Runtime}.

Lemma zero_or_unidentified_zero_sequence (c : cell) :
  zero_or_unidentified c = zero_sequence c.
Proof.
  unfold zero_or_unidentified, zero_sequence.
  destruct (isnull c), (bool_decide (strip (py_str c) = lit "0")); done.
Qed.

(** The figure on the summary line for zero or unidentified sequences of
    a report that is built: the number of rows of the group's full dataset
    whose sequence is null, or is exactly [0] or exactly [unidentified] once
    trimmed. Blank text and other spellings of the word are not counted. *)
Lemma zero_seq_count_exact_spelling
    (df_mismatch df_full_source : DataFrame) (source_name : cell) pdf :
  create_pdf_report df_mismatch df_full_source source_name = Ok pdf →
  zero_seq_count pdf
  = len (filter (λ r : row, zero_sequence (r SEQUENCE_COL) = true)
           (rows df_full_source))
  ∧ SummaryLine (lit "Vehicles with Zero/Unidentified Sequence:")
      (decimal (zero_seq_count pdf)) ∈ content pdf.
Proof.
  intros (Hzero & _ & _ & Hsummary)%create_pdf_report_built. split.
  - rewrite Hzero. unfold len. rewrite filter_fmap, length_fmap. do 2 f_equal.
    apply list_filter_iff. intros r. by rewrite zero_or_unidentified_zero_sequence.
  - apply Hsummary. unfold summary_lines. rewrite elem_of_app. left.
    do 2 right. left.
Qed.

(** C6 (amended). [print_summary] always returns, so it never divides by
    zero. It adds the heading and the three counts, and then, exactly when
    the total is positive, the percentage line, whose value is the binary64
    number [(mismatch_count / total_count) * 100] printed with two
    decimals. *)
Theorem print_summary_percentage (pdf : ANPR_Report_PDF) :
  print_summary pdf
  = Ok (draw pdf
          ([SummaryHeading (lit "--- Report Summary ---");
            SummaryLine (lit "Total Vehicles in this Source/Lane:")
              (decimal (total_count pdf));
            SummaryLine (lit "Vehicles with Zero/Unidentified Sequence:")
              (decimal (zero_seq_count pdf));
            SummaryLine (lit "Near-Mismatched Vehicles:")
              (decimal (mismatch_count pdf))]
           ++ if bool_decide (total_count pdf > 0) then
                [SummaryLine (lit "Mismatch Percentage:")
                   (format_2f
                      (PrimFloat.mul
                         (PrimFloat.div (float_of_int (mismatch_count pdf))
                            (float_of_int (total_count pdf)))
                         (float_of_int 100))
                    ++ lit "%")]
              else [])).
Proof.
  unfold print_summary. cbn [draw total_count mismatch_count zero_seq_count].
  case_bool_decide as Htotal.
  - assert (total_count pdf ≠ 0) as Hdivisor by lia.
    rewrite (truediv_ok _ _ Hdivisor), bind_ok.
    by rewrite !draw_draw.
  - by rewrite !draw_draw.
Qed.

(** C7. A parsed worksheet that lacks any of the three required columns is
    refused by the loader with the missing-columns message, and the route
    answers with that message flashed as an error and a redirect: no
    archive. *)
Theorem missing_required_column_is_refused (df : DataFrame) :
  ANPR_COL ∉ columns df ∨ TC_COL ∉ columns df ∨ SOURCE_COL ∉ columns df →
  process_excel_data (Ok df) = Failed missing_columns_message
  ∧ upload_file (Ok df)
    = Redirect (lit "Processing Error: " ++ missing_columns_message) (lit "error")
  ∧ archive_of (upload_file (Ok df)) = None.
Proof.
  intros Hmiss.
  assert (process_excel_data (Ok df) = Failed missing_columns_message) as Hload.
  { unfold process_excel_data. by rewrite process_excel_data_try_missing. }
  assert (upload_file (Ok df)
          = Redirect (lit "Processing Error: " ++ missing_columns_message)
              (lit "error")) as Hup.
  { unfold upload_file, upload_file_try. by rewrite Hload. }
  by rewrite Hup.
Qed.

(** C8. When the worksheet has the required columns and the classifier
    rejects the cleaned plates of every row, the loader returns a mismatch
    set without rows and the count zero, and the route answers with the
    informational message flashed as a success and a redirect: no archive,
    and not the error path. A worksheet without rows is such a worksheet. *)
Theorem no_mismatch_is_success (df : DataFrame) :
  ANPR_COL ∈ columns df → TC_COL ∈ columns df → SOURCE_COL ∈ columns df →
  Forall (λ r : row,
            check_exactly_one_mismatch_or_missing
              (py_str (cleaned r ANPR_COL)) (py_str (cleaned r TC_COL))
            = Ok false) (rows df) →
  (∃ mismatch_df full_df,
     process_excel_data (Ok df) = Loaded mismatch_df 0 full_df
     ∧ rows mismatch_df = [])
  ∧ upload_file (Ok df) = Redirect no_mismatch_message (lit "success")
  ∧ archive_of (upload_file (Ok df)) = None.
Proof.
  intros Ha Ht Hs Hall.
  assert (filter (λ r, near_mismatch r = true) (cleaned <$> rows df) = []) as Hnone.
  { induction Hall as [|r rs Hr _ IH]; [done|].
    rewrite fmap_cons, filter_cons, IH.
    assert (near_mismatch (cleaned r) = false) as Hnm
      by (unfold near_mismatch; by rewrite Hr).
    case_decide; congruence. }
  pose proof (process_excel_data_ok df Ha Ht Hs) as Hload.
  rewrite Hnone in Hload.
  assert (upload_file (Ok df) = Redirect no_mismatch_message (lit "success")) as Hup.
  { unfold upload_file. by erewrite upload_file_try_empty. }
  split; [by eexists _, _|]. by rewrite Hup.
Qed.

(** C9. What the loader returns as the mismatch set is made of rows of the
    full dataset, kept whole and in order, under the columns of the full
    dataset, or under no column when the full dataset has no row. So the
    source of every mismatch row is a source of the full dataset, every
    group has at most as many mismatch rows as rows, and every report of
    the archive shows a mismatch count that is at most its total. *)
Theorem mismatch_set_is_subset sheet mismatch_df count full_df :
  process_excel_data sheet = Loaded mismatch_df count full_df →
  rows mismatch_df `sublist_of` rows full_df
  ∧ columns mismatch_df
    = (if bool_decide (rows full_df = []) then [] else columns full_df)
  ∧ (∀ r : row, r ∈ rows mismatch_df → r SOURCE_COL ∈ sources full_df)
  ∧ (∀ key, len (rows (group mismatch_df SOURCE_COL key))
            ≤ len (rows (group full_df SOURCE_COL key)))
  ∧ (∀ message category archive entry,
       upload_file sheet = SendFile message category archive →
       entry ∈ archive →
       mismatch_count entry.2 ≤ total_count entry.2).
Proof.
  intros Hload.
  destruct (loaded_frames _ _ _ _ Hload) as (Hcols & _ & Hsub & _ & _).
  assert (∀ key, len (rows (group mismatch_df SOURCE_COL key))
                 ≤ len (rows (group full_df SOURCE_COL key))) as Hgroup.
  { intros key. unfold len, group. cbn [rows].
    apply inj_le. by apply length_group_le. }
  split_and!; try done.
  - intros r Hr. unfold sources.
    apply (list_elem_of_fmap_2 (λ r : row, r SOURCE_COL)).
    by eapply elem_of_sublist.
  - intros message category archive entry Hsend Hentry.
    apply upload_file_sends in Hsend as (m & n & f & Hload' & _ & Hall & _).
    rewrite Hload in Hload'. simplify_eq.
    apply list_elem_of_lookup in Hentry as [i Hi].
    destruct (Forall2_lookup_r _ _ _ i entry Hall Hi) as (key & _ & [Hpdf _]).
    apply create_pdf_report_fields in Hpdf as (_ & _ & -> & -> & _).
    apply Hgroup.
Qed.
End pipeline_properties.

Lemma filter_none {A} (P : A → Prop) `{∀ x, Decision (P x)} (l : list A) :
  Forall (λ x, ¬ P x) l → filter P l = [].
Proof.
  induction 1 as [|x l Hx _ IH]; [done|].
  rewrite filter_cons, IH. by case_decide.
Qed.

Lemma sorted_keys_Permutation (values : list cell) :
  Forall (λ key, ∃ s, key = Str s) values →
  sorted_keys values ≡ₚ remove_dups values.
Proof.
  intros Hvalues. unfold sorted_keys. rewrite merge_sort_Permutation.
  replace (filter (λ k, isnull k = false) values) with values; [done|].
  induction Hvalues as [|key values [s ->] _ IH]; [done|].
  rewrite filter_cons. cbn. by rewrite <- IH.
Qed.

Section archive_properties.
Context `{Runtime}.

Lemma create_pdf_report_mismatch_count m f name pdf :
  create_pdf_report m f name = Ok pdf → mismatch_count pdf = len (rows m).
Proof. by intros (_ & _ & _ & ? & _)%create_pdf_report_fields. Qed.

Lemma mismatch_sources_are_text sheet mismatch_df count full_df :
  process_excel_data sheet = Loaded mismatch_df count full_df →
  Forall (λ key, ∃ s, key = Str s) (sources mismatch_df).
Proof.
  intros (_ & _ & Hsub & Hstr & _)%loaded_frames.
  apply Forall_forall. intros key Hkey.
  eapply Forall_forall in Hstr; [done|].
  eapply elem_of_sublist; [done|]. by apply sources_sublist.
Qed.

(** C5 (amended). The archive of a successful run holds exactly one entry
    for each distinct source value that has at least one mismatch row, each
    the report of that source; no entry is the report of a source without
    mismatch rows. The number of entries is the number of distinct
    sanitized names of those sources if, and only if, no two of them are
    given the same sanitized name. *)
Theorem archive_one_report_per_mismatch_source
    sheet mismatch_df count full_df message category archive :
  process_excel_data sheet = Loaded mismatch_df count full_df →
  upload_file sheet = SendFile message category archive →
  length archive = length (remove_dups (sources mismatch_df))
  ∧ (∃ keys, keys ≡ₚ remove_dups (sources mismatch_df)
       ∧ Forall2 (report_of mismatch_df full_df) keys archive)
  ∧ (∀ key entry,
       key ∉ sources mismatch_df → entry ∈ archive →
       ¬ report_of mismatch_df full_df key entry)
  ∧ (length archive = length (remove_dups (sanitized <$> sources mismatch_df))
     ↔ ∀ key1 key2,
         key1 ∈ sources mismatch_df → key2 ∈ sources mismatch_df →
         sanitized key1 = sanitized key2 → key1 = key2).
Proof.
  intros Hload Hsend.
  apply upload_file_sends in Hsend as (m & n & f & Hload' & _ & Hall & _).
  rewrite Hload in Hload'. simplify_eq.
  pose proof (mismatch_sources_are_text _ _ _ _ Hload) as Hstr.
  pose proof (sorted_keys_Permutation _ Hstr) as Hperm.
  assert (length archive = length (remove_dups (sources m))) as Hlen.
  { by rewrite <- (Forall2_length _ _ _ Hall), Hperm. }
  split_and!; [done|by eauto| |].
  - intros key entry Hkey [i Hi]%list_elem_of_lookup [Hpdf _].
    destruct (Forall2_lookup_r _ _ _ i entry Hall Hi) as (key' & Hi' & [Hpdf' _]).
    apply create_pdf_report_mismatch_count in Hpdf, Hpdf'.
    rewrite Hpdf in Hpdf'. unfold len, group in Hpdf'. cbn [rows] in Hpdf'.
    apply (inj Z.of_nat) in Hpdf'.
    assert (key' ∈ sources m) as (r & Hr & Hin)%list_elem_of_fmap.
    { apply list_elem_of_lookup_2 in Hi'.
      by apply elem_of_sorted_keys in Hi' as [? _]. }
    assert (r ∈ filter (λ r : row, r SOURCE_COL = key') (rows m)) as Hr'
      by (by apply list_elem_of_filter).
    replace (filter (λ r : row, r SOURCE_COL = key) (rows m)) with (@nil row)
      in Hpdf'.
    + destruct (filter _ (rows m)); [by apply elem_of_nil in Hr'|done].
    + symmetry. apply filter_none, Forall_forall. intros r' Hr'' <-.
      apply Hkey. unfold sources.
      by apply (list_elem_of_fmap_2 (λ r : row, r SOURCE_COL)).
  - rewrite Hlen, <- (length_remove_dups_fmap_iff sanitized (sources m)).
    split; congruence.
Qed.

(** The load of a worksheet that has the three required columns and a
    near-mismatch. *)
Lemma process_excel_data_mismatch (df : DataFrame) :
  ANPR_COL ∈ columns df → TC_COL ∈ columns df → SOURCE_COL ∈ columns df →
  Exists (λ r : row, near_mismatch (cleaned r) = true) (rows df) →
  process_excel_data (Ok df)
  = Loaded
      {| columns := columns df;
         rows := filter (λ r, near_mismatch r = true) (cleaned <$> rows df) |}
      (len (filter (λ r, near_mismatch r = true) (cleaned <$> rows df)))
      {| columns := columns df; rows := cleaned <$> rows df |}
  ∧ filter (λ r, near_mismatch r = true) (cleaned <$> rows df) ≠ [].
Proof.
  intros Ha Ht Hs (r & Hr & Hnm)%Exists_exists.
  assert (cleaned r ∈ filter (λ r, near_mismatch r = true) (cleaned <$> rows df)) as Hin.
  { apply list_elem_of_filter. split; [done|]. by apply list_elem_of_fmap_2. }
  rewrite process_excel_data_ok by done.
  rewrite bool_decide_eq_false_2.
  - split; [done|]. intros Hnil. rewrite Hnil in Hin. by apply elem_of_nil in Hin.
  - intros Hnil. rewrite Hnil in Hin. by apply elem_of_nil in Hin.
Qed.

Lemma mismatch_rows_encodable (df : DataFrame) :
  Forall (λ r : row,
            near_mismatch (cleaned r) = true → encodable (columns df) (cleaned r) = true)
    (rows df) →
  Forall (λ r : row, encodable (columns df) r = true)
    (filter (λ r, near_mismatch r = true) (cleaned <$> rows df)).
Proof.
  intros Hall. apply Forall_forall.
  intros r' [Hnm (r & -> & Hr)%list_elem_of_fmap]%list_elem_of_filter.
  eapply Forall_forall in Hall; eauto.
Qed.

(** With the three required columns and the sequence column, a worksheet
    that has a near-mismatch, and whose near-mismatches have their texts
    within Latin-1, is answered with an archive. *)
Lemma route_succeeds_with_sequence_column (df : DataFrame) :
  ANPR_COL ∈ columns df → TC_COL ∈ columns df → SOURCE_COL ∈ columns df →
  SEQUENCE_COL ∈ columns df →
  Exists (λ r : row, near_mismatch (cleaned r) = true) (rows df) →
  Forall (λ r : row,
            near_mismatch (cleaned r) = true → encodable (columns df) (cleaned r) = true)
    (rows df) →
  ∃ count archive,
    upload_file (Ok df)
    = SendFile (found_message count (len archive)) (lit "success") archive.
Proof.
  intros Ha Ht Hs Hseq Hex Henc%mismatch_rows_encodable.
  destruct (process_excel_data_mismatch df Ha Ht Hs Hex) as [Hload Hrows].
  set (f := {| columns := columns df; rows := cleaned <$> rows df |}) in *.
  set (m := {| columns := columns df;
               rows := filter (λ r, near_mismatch r = true) (cleaned <$> rows df) |})
    in *.
  change (filter _ _) with (rows m) in Hload, Hrows, Henc.
  destruct (loaded_frames _ _ _ _ Hload) as (_ & _ & Hsub & _).
  destruct (report_loop_ok m f (sorted_keys (sources f)) (sorted_keys (sources m)) [] 0)
    as (entries & Hloop & Hlen).
  - by apply sorted_keys_subseteq.
  - apply Forall_forall. intros key [Hkey _]%elem_of_sorted_keys.
    pose proof (mismatch_sources_are_text _ _ _ _ Hload) as Hstr.
    by eapply Forall_forall in Hstr.
  - done.
  - apply Forall_forall.
    intros key [(r & -> & Hr)%list_elem_of_fmap _]%elem_of_sorted_keys. split.
    + eapply Forall_forall in Henc; [|exact Hr].
      by apply andb_true_iff in Henc as [_ ?].
    + apply Forall_forall. intros r' [_ Hr']%list_elem_of_filter.
      eapply Forall_forall in Henc; [|exact Hr'].
      by apply andb_true_iff in Henc as [? _].
  - exists (len (rows m)), entries. unfold upload_file.
    rewrite (upload_file_try_loaded _ _ _ _ Hload Hrows), Hloop, bind_ok.
    cbn. unfold len. by rewrite Hlen.
Qed.

(** Without the sequence column the same worksheet is answered with the
    error raised by the lookup of that column. *)
Lemma route_fails_without_sequence_column (df : DataFrame) :
  ANPR_COL ∈ columns df → TC_COL ∈ columns df → SOURCE_COL ∈ columns df →
  SEQUENCE_COL ∉ columns df →
  Exists (λ r : row, near_mismatch (cleaned r) = true) (rows df) →
  upload_file (Ok df)
  = Redirect
      (lit "An unexpected error occurred during processing or report generation: "
         ++ exn_str (KeyError SEQUENCE_COL)) (lit "error").
Proof.
  intros Ha Ht Hs Hseq Hex.
  destruct (process_excel_data_mismatch df Ha Ht Hs Hex) as [Hload Hrows].
  set (f := {| columns := columns df; rows := cleaned <$> rows df |}) in *.
  set (m := {| columns := columns df;
               rows := filter (λ r, near_mismatch r = true) (cleaned <$> rows df) |})
    in *.
  change (filter _ _) with (rows m) in Hload, Hrows.
  destruct (loaded_frames _ _ _ _ Hload) as (_ & _ & Hsub & _).
  pose proof (sorted_keys_subseteq _ _ Hsub) as Hkeys.
  assert (∃ key, key ∈ sorted_keys (sources m)) as [key Hkey].
  { destruct (rows m) as [|r rs] eqn:Hm; [done|]. exists (r SOURCE_COL).
    pose proof (mismatch_sources_are_text _ _ _ _ Hload) as Hstr.
    unfold sources in *. rewrite Hm, fmap_cons in *.
    apply Forall_cons in Hstr as [[s Hs'] _].
    apply elem_of_sorted_keys. split; [left|by rewrite Hs']. }
  unfold upload_file. rewrite (upload_file_try_loaded _ _ _ _ Hload Hrows).
  destruct (sorted_keys (sources m)) as [|key' keys] eqn:Hsorted;
    [by apply elem_of_nil in Hkey|].
  rewrite report_loop_missing; [done| |done].
  apply Hkeys. left.
Qed.
End archive_properties.

(** ** The properties on the example worksheets

    Everything below is evaluated with [basic_latin]. *)

Section examples.
#[local] Existing Instance basic_latin.

(** A decidable statement about concrete data, settled by evaluation. *)
Ltac by_evaluation :=
  match goal with
  | |- ?P => apply (bool_decide_unpack P); vm_compute; exact I
  end.

Lemma check_equal_length_hamming_witness :
  length (strip (lit "ABC123")) = length (strip (lit " ABD123 "))
  ∧ check_exactly_one_mismatch_or_missing (lit "ABC123") (lit " ABD123 ")
    = Ok (bool_decide (hamming (strip (lit "ABC123")) (strip (lit " ABD123 ")) = 1%nat))
  ∧ check_exactly_one_mismatch_or_missing (lit "ABC123") (lit "ABC123") = Ok false.
Proof.
  assert (length (strip (lit "ABC123")) = length (strip (lit " ABD123 "))) as Hlen
    by (vm_compute; reflexivity).
  split; [exact Hlen|].
  exact (check_equal_length_hamming (lit "ABC123") (lit " ABD123 ") Hlen).
Defined.

Lemma check_length_differs_witness :
  length (strip (lit "ABC123")) ≠ length (strip (lit "ABC12"))
  ∧ ∃ r, check_exactly_one_mismatch_or_missing (lit "ABC123") (lit "ABC12") = Ok r
      ∧ (length (strip (lit "ABC123")) = S (length (strip (lit "ABC12"))) →
           r = true ↔ one_deletion (strip (lit "ABC123")) (strip (lit "ABC12")))
      ∧ (length (strip (lit "ABC12")) = S (length (strip (lit "ABC123"))) →
           r = true ↔ one_deletion (strip (lit "ABC12")) (strip (lit "ABC123")))
      ∧ (2 ≤ Z.abs (len (strip (lit "ABC123")) - len (strip (lit "ABC12"))) →
           r = false).
Proof.
  assert (length (strip (lit "ABC123")) ≠ length (strip (lit "ABC12"))) as Hlen
    by (vm_compute; lia).
  split; [exact Hlen|].
  exact (check_length_differs (lit "ABC123") (lit "ABC12") Hlen).
Defined.

(** The examples of the specification's list of tests. *)
Example check_examples :
  check_exactly_one_mismatch_or_missing (lit "ABC123") (lit "ABD123") = Ok true
  ∧ check_exactly_one_mismatch_or_missing (lit "ABC123") (lit "ABC12") = Ok true
  ∧ check_exactly_one_mismatch_or_missing (lit "ABC123") (lit "XYZ987") = Ok false
  ∧ check_exactly_one_mismatch_or_missing (lit "AB") (lit "ABCD") = Ok false.
Proof. by vm_compute. Qed.

(** C3 fails on the code: in a lane of three rows whose sequences are
    blank text, the word Unidentified and the number zero, the claim counts
    all three, and the report of the lane, of three vehicles, counts
    one. *)
Theorem blank_and_capitalised_sequences_not_counted :
  len (filter (λ r : row, zero_sequence_any_case (r SEQUENCE_COL) = true)
         (rows sheet_odd_sequences)) = 3
  ∧ archive_zero_counts (upload_file (Ok sheet_odd_sequences))
    = [(lit "ANPR_Report_Lane_1.pdf", 3, 1)].
Proof. by vm_compute. Qed.

(** C4 fails on the code: the worksheet with one near-mismatch and only the
    three required columns is answered with an error, not an archive. *)
Theorem required_columns_only_is_an_error :
  upload_file (Ok sheet_required_only)
  = Redirect
      (lit "An unexpected error occurred during processing or report generation: 'ANPR Sequence'")
      (lit "error").
Proof. by vm_compute. Qed.

(** C5, as stated, fails: four sources with a near-mismatch each are
    given two sanitized names between them, the two lanes one and the blank
    source and the source [NAN] the other, and the archive has four
    entries, two under each file name. *)
Lemma sources_share_a_sanitized_name :
  archive_names (upload_file (Ok sheet_colliding_sources))
  = [lit "ANPR_Report_UNSPECIFIED_SOURCE.pdf"; lit "ANPR_Report_Lane_1.pdf";
     lit "ANPR_Report_Lane_1.pdf"; lit "ANPR_Report_UNSPECIFIED_SOURCE.pdf"]
  ∧ (length <$> archive_of (upload_file (Ok sheet_colliding_sources))) = Some 4%nat
  ∧ length (remove_dups
              (sanitized
                 <$> sources (mismatch_of
                                (process_excel_data (Ok sheet_colliding_sources)))))
    = 2%nat.
Proof. by vm_compute. Qed.

(** C6, as stated, fails: 23 of 160 is 14.375 percent and 49 of 160 is
    30.625 percent, exactly, yet the first prints as 14.37 and the second
    as 30.63, where the exact quotients print as 14.38 and 30.62. *)
Lemma percentage_differs_from_exact_quotient :
  percentage_line (print_summary (pdf_with_counts 160 23)) = Some (lit "14.37%")
  ∧ exact_percentage 23 160 ++ lit "%" = lit "14.38%"
  ∧ percentage_line (print_summary (pdf_with_counts 160 49)) = Some (lit "30.63%")
  ∧ exact_percentage 49 160 ++ lit "%" = lit "30.62%"
  ∧ 100 * 23 * 1000 = 14375 * 160
  ∧ 100 * 49 * 1000 = 30625 * 160.
Proof. by vm_compute. Qed.

Lemma missing_required_column_witness :
  (ANPR_COL ∉ columns sheet_without_source
   ∨ TC_COL ∉ columns sheet_without_source
   ∨ SOURCE_COL ∉ columns sheet_without_source)
  ∧ process_excel_data (Ok sheet_without_source) = Failed missing_columns_message
  ∧ upload_file (Ok sheet_without_source)
    = Redirect (lit "Processing Error: " ++ missing_columns_message) (lit "error")
  ∧ archive_of (upload_file (Ok sheet_without_source)) = None.
Proof.
  assert (ANPR_COL ∉ columns sheet_without_source
          ∨ TC_COL ∉ columns sheet_without_source
          ∨ SOURCE_COL ∉ columns sheet_without_source) as Hmiss
    by (right; right; by_evaluation).
  split; [exact Hmiss|].
  exact (missing_required_column_is_refused sheet_without_source Hmiss).
Defined.

Lemma no_mismatch_witness :
  (∃ mismatch_df full_df,
     process_excel_data (Ok sheet_all_match) = Loaded mismatch_df 0 full_df
     ∧ rows mismatch_df = [])
  ∧ upload_file (Ok sheet_all_match) = Redirect no_mismatch_message (lit "success")
  ∧ archive_of (upload_file (Ok sheet_all_match)) = None.
Proof.
  apply (no_mismatch_is_success sheet_all_match); [by_evaluation..|].
  repeat constructor; vm_compute; reflexivity.
Defined.

Lemma mismatch_set_is_subset_witness :
  ∃ mismatch_df count full_df,
    process_excel_data (Ok sheet_lanes) = Loaded mismatch_df count full_df
    ∧ rows mismatch_df `sublist_of` rows full_df
    ∧ columns mismatch_df
      = (if bool_decide (rows full_df = []) then [] else columns full_df)
    ∧ (∀ r : row, r ∈ rows mismatch_df → r SOURCE_COL ∈ sources full_df)
    ∧ (∀ key, len (rows (group mismatch_df SOURCE_COL key))
              ≤ len (rows (group full_df SOURCE_COL key)))
    ∧ (∀ message category archive entry,
         upload_file (Ok sheet_lanes) = SendFile message category archive →
         entry ∈ archive →
         mismatch_count entry.2 ≤ total_count entry.2).
Proof.
  eexists _, _, _. split; [apply process_excel_data_ok; by_evaluation|].
  eapply (mismatch_set_is_subset (Ok sheet_lanes)).
  apply process_excel_data_ok; by_evaluation.
Defined.

Lemma archive_one_report_witness :
  ∃ mismatch_df count full_df message category archive,
    process_excel_data (Ok sheet_lanes) = Loaded mismatch_df count full_df
    ∧ upload_file (Ok sheet_lanes) = SendFile message category archive
    ∧ length archive = length (remove_dups (sources mismatch_df))
    ∧ (∃ keys, keys ≡ₚ remove_dups (sources mismatch_df)
         ∧ Forall2 (report_of mismatch_df full_df) keys archive)
    ∧ (∀ key entry,
         key ∉ sources mismatch_df → entry ∈ archive →
         ¬ report_of mismatch_df full_df key entry)
    ∧ (length archive = length (remove_dups (sanitized <$> sources mismatch_df))
       ↔ ∀ key1 key2,
           key1 ∈ sources mismatch_df → key2 ∈ sources mismatch_df →
           sanitized key1 = sanitized key2 → key1 = key2).
Proof.
  destruct (route_succeeds_with_sequence_column sheet_lanes)
    as (count & archive & Hsend); [by_evaluation..|].
  eexists _, _, _, _, _, archive.
  split; [apply process_excel_data_ok; by_evaluation|].
  split; [exact Hsend|].
  eapply (archive_one_report_per_mismatch_source (Ok sheet_lanes));
    [apply process_excel_data_ok; by_evaluation|exact Hsend].
Defined.

(** On the three lanes the archive has the two reports of the lanes with a
    near-mismatch, and the counts of the first are 1 of 2. *)
Example sheet_lanes_archive :
  archive_names (upload_file (Ok sheet_lanes))
  = [lit "ANPR_Report_Lane_1.pdf"; lit "ANPR_Report_Lane_2.pdf"].
Proof. by vm_compute. Qed.
End examples.

(** * Further properties *)

(** ** Trimming *)

Section trimming.
Context `{Runtime}.

Lemma lstrip_no_leading_space (s : pystr) :
  head s = None ∨ (∃ c, head s = Some c ∧ isspace c = false) → lstrip s = s.
Proof.
  destruct s as [|c s]; [done|]. intros [?|(c' & [= <-] & Hc)]; [done|].
  cbn. by rewrite Hc.
Qed.

Lemma lstrip_head (s : pystr) (c : N) :
  head (lstrip s) = Some c → isspace c = false.
Proof.
  induction s as [|c' s IH]; [done|]. cbn.
  destruct (isspace c') eqn:Hc'; [done|]. by intros [= <-].
Qed.

Lemma lstrip_suffix (s : pystr) : ∃ spaces, s = spaces ++ lstrip s.
Proof.
  induction s as [|c s [spaces IH]]; [by exists []|]. cbn.
  destruct (isspace c).
  - exists (c :: spaces). cbn. by f_equal.
  - by exists [].
Qed.

Lemma strip_fixed (s : pystr) :
  (∀ c, head s = Some c → isspace c = false) →
  (∀ c, last s = Some c → isspace c = false) →
  strip s = s.
Proof.
  intros Hhead Hlast. unfold strip, rstrip.
  rewrite (lstrip_no_leading_space s).
  2:{ destruct (head s) eqn:Hs; eauto. }
  rewrite (lstrip_no_leading_space (reverse s)); [by rewrite reverse_involutive|].
  rewrite head_reverse. destruct (last s) eqn:Hs; eauto.
Qed.

Lemma strip_head (s : pystr) (c : N) :
  head (strip s) = Some c → isspace c = false.
Proof.
  unfold strip, rstrip. rewrite head_reverse. intros Hlast.
  destruct (lstrip_suffix (reverse (lstrip s))) as [spaces Hspaces].
  destruct (lstrip (reverse (lstrip s))) as [|c' w] eqn:Hw; [done|].
  apply (lstrip_head s).
  rewrite <- (reverse_involutive (lstrip s)), Hspaces, head_reverse.
  rewrite last_app, Hlast. done.
Qed.

Lemma strip_last (s : pystr) (c : N) :
  last (strip s) = Some c → isspace c = false.
Proof.
  unfold strip, rstrip. rewrite last_reverse. apply lstrip_head.
Qed.

Lemma strip_idemp (s : pystr) : strip (strip s) = strip s.
Proof. apply strip_fixed; [apply strip_head|apply strip_last]. Qed.

Lemma lstrip_spaces_app (spaces s : pystr) :
  Forall (λ c, isspace c = true) spaces → lstrip (spaces ++ s) = lstrip s.
Proof. induction 1 as [|c spaces Hc _ IH]; [done|]. cbn. by rewrite Hc. Qed.

Lemma lstrip_spaces (spaces : pystr) :
  Forall (λ c, isspace c = true) spaces → lstrip spaces = [].
Proof.
  intros Hspaces. rewrite <- (app_nil_r spaces). by rewrite lstrip_spaces_app.
Qed.

Lemma lstrip_app (s t : pystr) :
  lstrip (s ++ t) = if bool_decide (lstrip s = []) then lstrip t else lstrip s ++ t.
Proof.
  induction s as [|c s IH]; [done|]. cbn.
  destruct (isspace c); [done|]. by rewrite bool_decide_eq_false_2.
Qed.

Lemma rstrip_app_spaces (s spaces : pystr) :
  Forall (λ c, isspace c = true) spaces → rstrip (s ++ spaces) = rstrip s.
Proof.
  intros Hspaces. unfold rstrip. rewrite reverse_app, lstrip_spaces_app; [done|].
  by apply Forall_reverse.
Qed.

(** White space added at either end is trimmed away with the rest. *)
Lemma strip_pad (left right s : pystr) :
  Forall (λ c, isspace c = true) left →
  Forall (λ c, isspace c = true) right →
  strip (left ++ s ++ right) = strip s.
Proof.
  intros Hleft Hright. unfold strip.
  rewrite lstrip_spaces_app, lstrip_app by done.
  case_bool_decide as Hs.
  - rewrite Hs, lstrip_spaces by done. done.
  - by rewrite rstrip_app_spaces.
Qed.

(** X1. White space around either string never changes the verdict of the
    classifier: padding the two arguments with white space on both sides
    gives the same result, and so does trimming them beforehand. *)
Theorem check_ignores_surrounding_space (left1 right1 left2 right2 a b : pystr) :
  Forall (λ c, isspace c = true) (left1 ++ right1 ++ left2 ++ right2) →
  check_exactly_one_mismatch_or_missing (left1 ++ a ++ right1) (left2 ++ b ++ right2)
  = check_exactly_one_mismatch_or_missing a b
  ∧ check_exactly_one_mismatch_or_missing (strip a) (strip b)
    = check_exactly_one_mismatch_or_missing a b.
Proof.
  rewrite !Forall_app. intros (H1 & H2 & H3 & H4).
  unfold check_exactly_one_mismatch_or_missing.
  by rewrite !strip_pad, !strip_idemp.
Qed.
End trimming.

(** ** One edit *)

Lemma differing_shift (x y : N) (a b : pystr) (indices : list nat) :
  length (differing (x :: a) (y :: b) (S <$> indices))
  = length (differing a b indices).
Proof.
  unfold differing. induction indices as [|i indices IH]; [done|].
  rewrite fmap_cons, !filter_cons. cbn [lookup list_lookup] in *.
  repeat case_decide; cbn [length]; rewrite ?IH; done.
Qed.

Lemma differing_cons (x y : N) (a b : pystr) (n : nat) :
  length (differing (x :: a) (y :: b) (seq 0 (S n)))
  = ((if decide (x = y) then 0 else 1) + length (differing a b (seq 0 n)))%nat.
Proof.
  cbn [seq]. rewrite <- fmap_S_seq, <- (differing_shift x y a b (seq 0 n)).
  unfold differing. rewrite filter_cons. cbn [lookup list_lookup].
  repeat case_decide; simplify_eq; done.
Qed.

Lemma hamming_cons (x y : N) (a b : pystr) :
  hamming (x :: a) (y :: b)
  = ((if decide (x = y) then 0 else 1) + hamming a b)%nat.
Proof. unfold hamming. cbn [length]. apply differing_cons. Qed.

Lemma hamming_app_prefix (before a b : pystr) :
  hamming (before ++ a) (before ++ b) = hamming a b.
Proof.
  induction before as [|c before IH]; [done|].
  cbn [app]. rewrite hamming_cons, IH. by case_decide.
Qed.

Lemma hamming_zero_eq (a b : pystr) :
  length a = length b → hamming a b = 0%nat → a = b.
Proof.
  revert b. induction a as [|x a IH]; intros [|y b] Hlen Hzero; try done.
  rewrite hamming_cons in Hzero. case_decide; [|done].
  subst. f_equal. apply IH; [by injection Hlen|done].
Qed.

Lemma hamming_one_substitution (a b : pystr) :
  length a = length b → hamming a b = 1%nat ↔ one_substitution a b.
Proof.
  intros Hlen. split.
  - revert b Hlen. induction a as [|x a IH]; intros [|y b] Hlen Hone; try done.
    rewrite hamming_cons in Hone. injection Hlen as Hlen. case_decide as Hxy.
    + subst y. destruct (IH b Hlen Hone) as (before & x' & y' & after & ? & -> & ->).
      by exists (x :: before), x', y', after.
    + assert (a = b) as -> by (apply hamming_zero_eq; [done|lia]).
      by exists [], x, y, b.
  - intros (before & x & y & after & Hxy & -> & ->).
    rewrite hamming_app_prefix, hamming_cons, hamming_refl.
    by rewrite decide_False.
Qed.

Lemma one_substitution_length (a b : pystr) :
  one_substitution a b → length a = length b ∧ a ≠ b.
Proof.
  intros (before & x & y & after & Hxy & -> & ->). split.
  - by rewrite !length_app.
  - intros Heq. by simplify_list_eq.
Qed.

Section one_edit.
Context `{Runtime}.

(** X2. The classifier accepts two strings exactly when the trimmed strings
    are one edit apart: one character replaced by a different one, or one
    character deleted from either to give the other. *)
Theorem check_true_iff_one_edit (a b : pystr) :
  check_exactly_one_mismatch_or_missing a b = Ok true
  ↔ one_substitution (strip a) (strip b)
    ∨ one_deletion (strip a) (strip b)
    ∨ one_deletion (strip b) (strip a).
Proof.
  destruct (decide (length (strip a) = length (strip b))) as [Hlen|Hlen].
  - rewrite check_on_equal_length by done. split.
    + intros [= Hone%bool_decide_eq_true]. left. by apply hamming_one_substitution.
    + intros [Hsub|[Hdel%one_deletion_length|Hdel%one_deletion_length]]; [|lia..].
      f_equal. by apply bool_decide_eq_true, hamming_one_substitution.
  - rewrite check_on_unequal_length by done. unfold len. split.
    + case_bool_decide as Habs; [|done].
      case_bool_decide; intros [= Hdel%try_deletions_range]; auto.
    + intros [[? _]%one_substitution_length|[Hdel|Hdel]]; [done| |];
        pose proof (one_deletion_length _ _ Hdel);
        rewrite (bool_decide_eq_true_2 (Z.abs _ = 1)) by lia;
        [rewrite bool_decide_eq_false_2 by lia|rewrite bool_decide_eq_true_2 by lia];
        f_equal; by apply try_deletions_range.
Qed.

(** X3. Two strings that differ by swapping two different neighbouring
    characters are not accepted. *)
Theorem check_rejects_transposition (a b before after : pystr) (x y : N) :
  x ≠ y →
  strip a = before ++ x :: y :: after →
  strip b = before ++ y :: x :: after →
  check_exactly_one_mismatch_or_missing a b = Ok false.
Proof.
  intros Hxy Ha Hb.
  rewrite check_on_equal_length by (by rewrite Ha, Hb, !length_app).
  rewrite Ha, Hb, hamming_app_prefix, !hamming_cons, hamming_refl.
  by rewrite !decide_False by done.
Qed.
End one_edit.

(** ** The loader, further *)

Section loader_properties.
Context `{Runtime}.

(** X4. When the worksheet cannot be read, whatever the exception, the
    loader returns a message that ends with the text of the exception, and
    the route flashes it as an error after the words Processing Error and
    sends no archive. A [ValueError] is passed on word for word. *)
Theorem read_failure_is_reported (e : exn) :
  ∃ message,
    process_excel_data (Raise e) = Failed message
    ∧ exn_str e `suffix_of` message
    ∧ (∀ text, e = ValueError text → message = text)
    ∧ upload_file (Raise e)
      = Redirect (lit "Processing Error: " ++ message) (lit "error")
    ∧ archive_of (upload_file (Raise e)) = None.
Proof.
  destruct e; (eexists; split; [reflexivity|]); split_and!;
    try reflexivity; try (by intros text [= ->]); try done;
    by apply suffix_app_r.
Qed.


(** X6. Loading changes three cells of each row and nothing else: the two
    plates become their trimmed, upper-cased text, the source becomes its
    trimmed text, every other column keeps its cell, and the frame keeps its
    columns and its number of rows. *)
Theorem loader_cleans_three_columns (df : DataFrame) mismatch_df count full_df :
  process_excel_data (Ok df) = Loaded mismatch_df count full_df →
  columns full_df = columns df
  ∧ Forall2
      (λ r r' : row,
         r' ANPR_COL = Str (upper (strip (py_str (r ANPR_COL))))
         ∧ r' TC_COL = Str (upper (strip (py_str (r TC_COL))))
         ∧ r' SOURCE_COL = Str (strip (py_str (r SOURCE_COL)))
         ∧ ∀ col, col ∉ [ANPR_COL; TC_COL; SOURCE_COL] → r' col = r col)
      (rows df) (rows full_df).
Proof.
  intros (df' & [= <-] & _ & _ & _ & -> & _)%process_excel_data_loaded.
  split; [done|]. cbn [rows]. apply Forall2_fmap_r, Forall_Forall2_diag, Forall_forall.
  intros r _. destruct required_columns_distinct as (Hat & Has & Hts).
  unfold cleaned. split_and!.
  - by rewrite !fn_lookup_insert_ne, fn_lookup_insert by done.
  - by rewrite fn_lookup_insert_ne, fn_lookup_insert, fn_lookup_insert_ne by done.
  - by rewrite fn_lookup_insert, !fn_lookup_insert_ne by done.
  - intros col Hcol. rewrite !fn_lookup_insert_ne; [done|..];
      intros <-; apply Hcol; rewrite !elem_of_cons; tauto.
Qed.
End loader_properties.

(** ** Grouping, further *)

Lemma pystr_leb_total (a b : pystr) : pystr_leb a b = true ∨ pystr_leb b a = true.
Proof.
  revert b. induction a as [|x a IH]; intros [|y b]; cbn; auto.
  destruct (N.ltb_spec x y), (N.ltb_spec y x); auto; lia.
Qed.

Lemma pystr_leb_trans (a b c : pystr) :
  pystr_leb a b = true → pystr_leb b c = true → pystr_leb a c = true.
Proof.
  revert b c. induction a as [|x a IH]; intros [|y b] [|z c]; cbn; try done.
  destruct (N.ltb_spec x y), (N.ltb_spec y x), (N.ltb_spec y z), (N.ltb_spec z y),
    (N.ltb_spec x z), (N.ltb_spec z x); try done; try lia.
  apply IH.
Qed.

#[local] Instance cell_le_total : Total cell_le.
Proof.
  intros [|a|a|a] [|b|b|b]; unfold cell_le; cbn; auto.
  - destruct (pystr_leb_total a b) as [->| ->]; auto.
  - destruct (decide (a ≤ b)); [left|right]; apply bool_decide_pack; lia.
  - destruct (pystr_leb_total a b) as [->| ->]; auto.
Qed.

#[local] Instance cell_le_trans : Transitive cell_le.
Proof.
  intros [|a|a|a] [|b|b|b] [|c|c|c]; unfold cell_le; cbn; try done.
  - intros Hab%Is_true_true Hbc%Is_true_true. apply Is_true_true.
    by eapply pystr_leb_trans.
  - intros Hab%bool_decide_unpack Hbc%bool_decide_unpack.
    apply bool_decide_pack. lia.
  - intros Hab%Is_true_true Hbc%Is_true_true. apply Is_true_true.
    by eapply pystr_leb_trans.
Qed.

Lemma filter_ext_in {A} (P Q : A → Prop) `{∀ x, Decision (P x), ∀ x, Decision (Q x)}
    (l : list A) :
  (∀ x, x ∈ l → P x ↔ Q x) → filter P l = filter Q l.
Proof.
  induction l as [|x l IH]; intros Hext; [done|].
  rewrite !filter_cons, IH by (intros y Hy; apply Hext; by right).
  pose proof (Hext x ltac:(left)). repeat case_decide; tauto.
Qed.

Lemma sum_list_with_compose {A B} (f : B → nat) (g : A → B) (l : list A) :
  sum_list_with f (g <$> l) = sum_list_with (λ x, f (g x)) l.
Proof. induction l as [|x l IH]; [done|]. cbn. by rewrite IH. Qed.

Lemma NoDup_sorted_keys (values : list cell) : NoDup (sorted_keys values).
Proof. unfold sorted_keys. rewrite merge_sort_Permutation. apply NoDup_remove_dups. Qed.

(** The sizes of the groups of distinct keys add up to the number of rows
    whose key is one of them. *)
Lemma sum_group_sizes (col : pystr) (keys : list cell) (rs : list row) :
  NoDup keys →
  sum_list_with (λ key, length (filter (λ r : row, r col = key) rs)) keys
  = length (filter (λ r : row, r col ∈ keys) rs).
Proof.
  intros Hkeys. induction rs as [|r rs IH].
  { induction keys as [|key keys IHk]; [done|]. cbn. apply IHk.
    by apply NoDup_cons in Hkeys as [_ ?]. }
  rewrite (filter_cons (λ r : row, r col ∈ keys)).
  assert (sum_list_with (λ key, length (filter (λ r0 : row, r0 col = key) (r :: rs))) keys
          = ((if decide (r col ∈ keys) then 1 else 0)
             + sum_list_with (λ key, length (filter (λ r0 : row, r0 col = key) rs)) keys)%nat)
    as ->.
  { clear IH. induction Hkeys as [|key keys Hkey Hkeys IHk]; [done|].
    cbn [sum_list_with]. rewrite IHk, filter_cons.
    repeat case_decide; cbn [length]; try lia; exfalso;
      rewrite ?elem_of_cons in *; subst; tauto. }
  rewrite IH. by case_decide.
Qed.

(** Grouping a frame by a column it has splits its rows with a
    non-missing key without losing or repeating any: the keys are distinct,
    every group is the non-empty list of the frame's rows with its key, in
    order, every such row is in the group of its key, and the sizes of the
    groups add up to the number of rows with a non-missing key. *)
Lemma groupby_partitions (df : DataFrame) (col : pystr) groups :
  groupby df col = Ok groups →
  NoDup groups.*1
  ∧ Forall (λ kg : cell * DataFrame,
              isnull kg.1 = false
              ∧ rows kg.2 ≠ []
              ∧ columns kg.2 = columns df
              ∧ rows kg.2 = filter (λ r : row, r col = kg.1) (rows df)) groups
  ∧ (∀ r : row, r ∈ rows df → isnull (r col) = false →
       ∃ g, (r col, g) ∈ groups ∧ r ∈ rows g)
  ∧ sum_list_with (λ kg : cell * DataFrame, length (rows kg.2)) groups
    = length (filter (λ r : row, isnull (r col) = false) (rows df)).
Proof.
  intros Hgroups.
  destruct (decide (col ∈ columns df)) as [Hcol|Hcol];
    [|by unfold groupby, getcol in Hgroups; rewrite bool_decide_eq_false_2 in Hgroups].
  rewrite groupby_ok in Hgroups by done. injection Hgroups as <-.
  set (keys := sorted_keys ((λ r : row, r col) <$> rows df)).
  assert (∀ key, key ∈ keys ↔ (∃ r : row, r ∈ rows df ∧ r col = key) ∧ isnull key = false)
    as Hkeys.
  { intros key. unfold keys. rewrite elem_of_sorted_keys, list_elem_of_fmap.
    split; intros [(r & ? & ?) ?]; split; eauto. }
  split_and!.
  - rewrite <- list_fmap_compose. cbn. rewrite list_fmap_id. apply NoDup_sorted_keys.
  - apply Forall_fmap, Forall_forall. intros key [(r & Hr & Hkey) Hnull]%Hkeys.
    cbn. split_and!; try done. intros Hnil.
    assert (r ∈ filter (λ r : row, r col = key) (rows df)) as Hin
      by (by apply list_elem_of_filter).
    rewrite Hnil in Hin. by apply elem_of_nil in Hin.
  - intros r Hr Hnull. exists (group df col (r col)). split.
    + apply (list_elem_of_fmap_2 (λ key, (key, group df col key))).
      apply Hkeys. eauto.
    + by apply list_elem_of_filter.
  - rewrite sum_list_with_compose.
    etrans; [apply (sum_group_sizes col keys (rows df)), NoDup_sorted_keys|].
    f_equal. apply filter_ext_in. intros r Hr. rewrite Hkeys.
    split; [by intros [_ ?]|]. intros Hnull. split; [|done]. by exists r.
Qed.

Lemma get_group_missing (make : cell → DataFrame) (keys : list cell) (name : cell) :
  name ∉ keys →
  get_group ((λ key, (key, make key)) <$> keys) name = Raise (KeyError (py_str name)).
Proof.
  induction keys as [|key keys IH]; intros Hname; [done|].
  rewrite fmap_cons. cbn [get_group].
  rewrite bool_decide_eq_false_2 by (intros ->; apply Hname; left).
  apply IH. intros ?. apply Hname. by right.
Qed.

(** Grouping fails exactly when the frame lacks the column, with a
    [KeyError] naming it. After a grouping, asking for the group of a key
    gives the frame's rows with that key when the key is a non-missing value
    of the column, and raises a [KeyError] for any other key. *)
Lemma groupby_then_get_group (df : DataFrame) (col : pystr) :
  match groupby df col with
  | Ok groups =>
      col ∈ columns df
      ∧ ∀ key,
          get_group groups key
          = if decide (isnull key = false ∧ key ∈ ((λ r : row, r col) <$> rows df))
            then Ok (group df col key)
            else Raise (KeyError (py_str key))
  | Raise e => (col ∉ columns df) ∧ e = KeyError col
  end.
Proof.
  destruct (decide (col ∈ columns df)) as [Hcol|Hcol].
  - rewrite groupby_ok by done. split; [done|]. intros key. case_decide as Hkey.
    + apply get_group_ok, elem_of_sorted_keys. tauto.
    + apply get_group_missing. rewrite elem_of_sorted_keys. tauto.
  - unfold groupby, getcol. by rewrite bool_decide_eq_false_2.
Qed.

(** The groups come in ascending order of their keys, numbers before
    text and text in the order of its code points, each key before all the
    later ones. *)
Lemma groupby_keys_ascending (df : DataFrame) (col : pystr) groups :
  groupby df col = Ok groups → StronglySorted cell_le groups.*1.
Proof.
  intros Hgroups.
  destruct (decide (col ∈ columns df)) as [Hcol|Hcol];
    [|by unfold groupby, getcol in Hgroups; rewrite bool_decide_eq_false_2 in Hgroups].
  rewrite groupby_ok in Hgroups by done. injection Hgroups as <-.
  rewrite <- list_fmap_compose. cbn. rewrite list_fmap_id.
  unfold sorted_keys. apply (StronglySorted_merge_sort _).
Qed.

(** ** The report, further *)

Lemma filter_all {A} (P : A → Prop) `{∀ x, Decision (P x)} (l : list A) :
  Forall P l → filter P l = l.
Proof.
  induction 1 as [|x l Hx _ IH]; [done|].
  by rewrite filter_cons, decide_True, IH.
Qed.

Section report_properties.
Context `{Runtime}.

(** X8. Building a report fails in two cases only. Either the full
    dataset of the group lacks the sequence column, and the failure is a
    [KeyError] naming it. Or it has the column, and the title or one of the
    three texts of some row of the table has a character outside Latin-1,
    and the failure is the error of the encoding. No image, present or not,
    makes it fail. A report that is built carries the given title, the row
    counts of the two frames, and one table row for each mismatch row, in
    order, and its title and the texts of its rows are within Latin-1. *)
Theorem create_pdf_report_outcome
    (df_mismatch df_full_source : DataFrame) (source_name : cell) :
  match create_pdf_report df_mismatch df_full_source source_name with
  | Ok pdf =>
      SEQUENCE_COL ∈ columns df_full_source
      ∧ report_title pdf = source_name
      ∧ total_count pdf = len (rows df_full_source)
      ∧ mismatch_count pdf = len (rows df_mismatch)
      ∧ filter (λ d, is_data_row d = true) (content pdf)
        = data_row (columns df_mismatch) <$> rows df_mismatch
      ∧ latin1 (py_str source_name) = true
      ∧ Forall (λ r, forallb latin1 (table_texts (columns df_mismatch) r) = true)
          (rows df_mismatch)
  | Raise e =>
      ((SEQUENCE_COL ∉ columns df_full_source) ∧ e = KeyError SEQUENCE_COL)
      ∨ (SEQUENCE_COL ∈ columns df_full_source
         ∧ ¬ (latin1 (py_str source_name) = true
              ∧ Forall (λ r, forallb latin1 (table_texts (columns df_mismatch) r) = true)
                  (rows df_mismatch))
         ∧ ∃ texts, e = UnicodeEncodeError (encoding_error texts))
  end.
Proof.
  destruct (create_pdf_report _ _ _) as [pdf|e] eqn:Hpdf.
  - destruct (create_pdf_report_fields _ _ _ _ Hpdf) as (? & ? & ? & ? & ?).
    destruct (create_pdf_report_built _ _ _ _ Hpdf) as (_ & ? & ? & _).
    done.
  - destruct (decide (SEQUENCE_COL ∈ columns df_full_source)) as [Hseq|Hseq].
    + right. split; [done|].
      destruct (decide (latin1 (py_str source_name) = true
                        ∧ Forall (λ r, forallb latin1
                                         (table_texts (columns df_mismatch) r) = true)
                            (rows df_mismatch))) as [[Htitle Hrows]|Hnot].
      * destruct (create_pdf_report_ok df_mismatch df_full_source source_name)
          as [pdf Hok]; [done..|]. congruence.
      * split; [done|].
        destruct (create_pdf_report_encoding df_mismatch df_full_source source_name)
          as [texts Hraise]; [done..|].
        exists texts. congruence.
    + left. rewrite create_pdf_report_missing in Hpdf by done. by injection Hpdf as <-.
Qed.

Lemma image_columns_distinct : lit "image_path" ≠ lit "vehicle_image".
Proof. by vm_compute. Qed.

Lemma insert_image_cell_Image (data : row) (path_key path : pystr) :
  insert_image_cell data path_key = Image path →
  path = py_str (data path_key)
  ∧ path ≠ [] ∧ path_exists path = true ∧ image_loads path = true.
Proof.
  unfold insert_image_cell. case_bool_decide as Hpath; cbn [andb]; [|done].
  destruct (path_exists _) eqn:Hexists; [|done].
  destruct (image_loads _) eqn:Hloads; [|done]. by intros [= <-].
Qed.

(** X9. In a report that is built, every table row has three texts; an
    image column that the mismatch frame lacks gives the placeholder for a
    missing image in every row; and an image is embedded only under a
    non-empty path that exists and loads. *)
Theorem report_rows_and_images
    (df_mismatch df_full_source : DataFrame) (source_name : cell) pdf
    (texts : list pystr) (plate vehicle : image_cell) :
  create_pdf_report df_mismatch df_full_source source_name = Ok pdf →
  DataRow texts plate vehicle ∈ content pdf →
  length texts = 3%nat
  ∧ (lit "image_path" ∉ columns df_mismatch → plate = ImageNotFound)
  ∧ (lit "vehicle_image" ∉ columns df_mismatch → vehicle = ImageNotFound)
  ∧ ∀ path, plate = Image path ∨ vehicle = Image path →
      path ≠ [] ∧ path_exists path = true ∧ image_loads path = true.
Proof.
  intros Hpdf Hrow.
  assert (DataRow texts plate vehicle ∈ filter (λ d, is_data_row d = true) (content pdf))
    as Hin by (by apply list_elem_of_filter).
  destruct (create_pdf_report_fields _ _ _ _ Hpdf) as (_ & _ & _ & _ & Htable).
  rewrite Htable in Hin. apply list_elem_of_fmap in Hin as (r & Hr & _).
  unfold data_row in Hr. injection Hr as -> Hplate Hvehicle.
  pose proof image_columns_distinct as Hne.
  split_and!.
  - done.
  - intros Hcol. rewrite Hplate. unfold insert_image_cell.
    rewrite fn_lookup_insert_ne, fn_lookup_insert by done. cbn [py_str].
    by rewrite (bool_decide_eq_false_2 (_ ∈ _)) by done.
  - intros Hcol. rewrite Hvehicle. unfold insert_image_cell.
    rewrite fn_lookup_insert. cbn [py_str].
    rewrite fn_lookup_insert_ne by done.
    by rewrite (bool_decide_eq_false_2 (_ ∈ _)) by done.
  - intros path [Hp|Hp]; rewrite Hp in *;
      [symmetry in Hplate; apply insert_image_cell_Image in Hplate
      |symmetry in Hvehicle; apply insert_image_cell_Image in Hvehicle]; tauto.
Qed.
End report_properties.

(** ** The route, further *)

Lemma length_remove_dups_le {A} `{EqDecision A} (l : list A) :
  (length (remove_dups l) ≤ length l)%nat.
Proof.
  induction l as [|x l IH]; [done|]. cbn [remove_dups].
  case_match; cbn [length]; lia.
Qed.

Section route_properties.
Context `{Runtime}.

Lemma display_name_text (s : pystr) :
  ∃ s', display_name (Str s) = Str s' ∧ s' ≠ [].
Proof.
  unfold display_name. cbn [truthy].
  destruct (decide (s = [])) as [->|Hs].
  - rewrite (bool_decide_eq_false_2 ([] ≠ [])) by (by intros ?). cbn [negb orb].
    by eexists.
  - rewrite (bool_decide_eq_true_2 (s ≠ [])) by done. cbn [negb orb].
    case_bool_decide; by eexists.
Qed.

(** Every mismatch row behind an archive has its texts within Latin-1. *)
Lemma archive_rows_encodable sheet message category archive :
  upload_file sheet = SendFile message category archive →
  ∃ mismatch_df count full_df,
    process_excel_data sheet = Loaded mismatch_df count full_df
    ∧ Forall (λ r : row, encodable (columns mismatch_df) r = true) (rows mismatch_df).
Proof.
  intros (m & n & f & Hload & _ & Hall & _)%upload_file_sends.
  exists m, n, f. split; [done|].
  pose proof (mismatch_sources_are_text _ _ _ _ Hload) as Hstr.
  apply Forall_forall. intros r Hr.
  assert (r SOURCE_COL ∈ sorted_keys (sources m)) as [i Hi]%list_elem_of_lookup.
  { assert (r SOURCE_COL ∈ sources m) as Hkey
      by (by apply (list_elem_of_fmap_2 (λ r : row, r SOURCE_COL))).
    apply elem_of_sorted_keys. split; [done|].
    eapply Forall_forall in Hstr as [s ->]; done. }
  destruct (Forall2_lookup_l _ _ _ i _ Hall Hi) as (entry & _ & [Hpdf _]).
  apply create_pdf_report_built in Hpdf as (_ & Htitle & Hrows & _).
  unfold encodable. rewrite Htitle, andb_true_r.
  eapply Forall_forall in Hrows; [exact Hrows|].
  by apply list_elem_of_filter.
Qed.

(** X10. On a parsed worksheet the route sends an archive exactly when the
    worksheet has the three required columns and the sequence column, at
    least one of its rows is a near-mismatch once cleaned, and every such
    row has its texts within Latin-1: its sequence, its two plates and the
    name its source is shown under. In every other case it answers with a
    redirect. *)
Theorem archive_sent_iff (df : DataFrame) :
  is_Some (archive_of (upload_file (Ok df)))
  ↔ ANPR_COL ∈ columns df ∧ TC_COL ∈ columns df ∧ SOURCE_COL ∈ columns df
    ∧ SEQUENCE_COL ∈ columns df
    ∧ Exists (λ r : row, near_mismatch (cleaned r) = true) (rows df)
    ∧ Forall (λ r : row,
                near_mismatch (cleaned r) = true
                → encodable (columns df) (cleaned r) = true) (rows df).
Proof.
  split.
  - intros [archive Harchive].
    destruct (upload_file (Ok df)) as [|message category archive'] eqn:Hsend; [done|].
    pose proof Hsend as Hsend'.
    apply upload_file_sends in Hsend' as (m & n & f & Hload & Hrows & _).
    pose proof Hload as (df' & [= <-] & Ha & Ht & Hs & -> & -> & _)%process_excel_data_loaded.
    cbn [rows] in Hrows.
    assert (Exists (λ r : row, near_mismatch (cleaned r) = true) (rows df)) as Hex.
    { destruct (filter _ (cleaned <$> rows df)) as [|r' rs] eqn:Hfilter; [done|].
      assert (r' ∈ filter (λ r, near_mismatch r = true) (cleaned <$> rows df)) as Hin
        by (rewrite Hfilter; left).
      apply list_elem_of_filter in Hin as [Hnm (r & -> & Hr)%list_elem_of_fmap].
      apply Exists_exists. eauto. }
    split_and!; try done.
    + destruct (decide (SEQUENCE_COL ∈ columns df)) as [|Hseq]; [done|].
      by rewrite route_fails_without_sequence_column in Hsend.
    + destruct (process_excel_data_mismatch df Ha Ht Hs Hex) as [Hload' _].
      apply archive_rows_encodable in Hsend as (m' & n' & f' & Hload'' & Henc).
      rewrite Hload' in Hload''. injection Hload'' as <- <- <-.
      cbn [rows columns] in Henc.
      apply Forall_forall. intros r Hr Hnm.
      eapply Forall_forall in Henc; [exact Henc|].
      apply list_elem_of_filter. split; [done|]. by apply list_elem_of_fmap_2.
  - intros (Ha & Ht & Hs & Hseq & Hex & Henc).
    destruct (route_succeeds_with_sequence_column df Ha Ht Hs Hseq Hex Henc)
      as (count & archive & ->).
    by eexists.
Qed.

Lemma sum_list_with_Forall2 {A B} (f : A → nat) (g : B → nat)
    (l : list A) (k : list B) :
  Forall2 (λ x y, g y = f x) l k → sum_list_with g k = sum_list_with f l.
Proof. induction 1 as [|x y l k Hxy _ IH]; [done|]. cbn. by rewrite Hxy, IH. Qed.

(** X7. In an archive no mismatch row is lost or reported twice: the
    mismatch counts of the reports add up to the number of mismatch rows.
    Every report counts at least one mismatch row and at most as many as its
    total, and the totals add up to at most the number of rows of the full
    dataset. *)
Theorem archive_counts_add_up sheet message category archive :
  upload_file sheet = SendFile message category archive →
  ∃ mismatch_df count full_df,
    process_excel_data sheet = Loaded mismatch_df count full_df
    ∧ sum_list_with (λ entry : pystr * ANPR_Report_PDF,
                       Z.to_nat (mismatch_count entry.2)) archive
      = length (rows mismatch_df)
    ∧ (sum_list_with (λ entry : pystr * ANPR_Report_PDF,
                        Z.to_nat (total_count entry.2)) archive
       ≤ length (rows full_df))%nat
    ∧ Forall (λ entry : pystr * ANPR_Report_PDF,
                1 ≤ mismatch_count entry.2 ≤ total_count entry.2) archive.
Proof.
  intros (m & n & f & Hload & _ & Hall & _)%upload_file_sends.
  exists m, n, f. split; [done|].
  pose proof (loaded_frames _ _ _ _ Hload) as (_ & _ & Hsub & _ & _).
  pose proof (mismatch_sources_are_text _ _ _ _ Hload) as Hstr.
  set (keys := sorted_keys (sources m)) in *.
  assert (∀ key, key ∈ keys ↔ key ∈ sources m) as Hkeys.
  { intros key. unfold keys. rewrite elem_of_sorted_keys. split; [tauto|].
    intros Hkey. split; [done|]. eapply Forall_forall in Hstr as [s ->]; done. }
  assert (Forall2
            (λ key (entry : pystr * ANPR_Report_PDF),
               mismatch_count entry.2
               = len (filter (λ r : row, r SOURCE_COL = key) (rows m))
               ∧ total_count entry.2
                 = len (filter (λ r : row, r SOURCE_COL = key) (rows f)))
            keys archive) as Hcounts.
  { eapply Forall2_impl; [exact Hall|]. intros key entry [Hpdf _].
    by apply create_pdf_report_fields in Hpdf as (_ & _ & -> & -> & _). }
  split_and!.
  - rewrite (sum_list_with_Forall2
               (λ key, length (filter (λ r : row, r SOURCE_COL = key) (rows m)))
               _ keys archive).
    + rewrite sum_group_sizes by apply NoDup_sorted_keys.
      f_equal. apply filter_all, Forall_forall. intros r Hr. apply Hkeys.
      unfold sources. by apply (list_elem_of_fmap_2 (λ r : row, r SOURCE_COL)).
    + eapply Forall2_impl; [exact Hcounts|]. intros key entry [-> _].
      unfold len. by rewrite Nat2Z.id.
  - rewrite (sum_list_with_Forall2
               (λ key, length (filter (λ r : row, r SOURCE_COL = key) (rows f)))
               _ keys archive).
    + rewrite sum_group_sizes by apply NoDup_sorted_keys.
      apply sublist_length, sublist_filter.
    + eapply Forall2_impl; [exact Hcounts|]. intros key entry [_ ->].
      unfold len. by rewrite Nat2Z.id.
  - apply Forall_forall. intros entry [i Hi]%list_elem_of_lookup.
    destruct (Forall2_lookup_r _ _ _ i entry Hcounts Hi) as (key & Hkey & -> & ->).
    apply list_elem_of_lookup_2, Hkeys in Hkey.
    apply list_elem_of_fmap in Hkey as (r & -> & Hr).
    assert (r ∈ filter (λ r' : row, r' SOURCE_COL = r SOURCE_COL) (rows m)) as Hin
      by (by apply list_elem_of_filter).
    pose proof (length_group_le (rows m) (rows f) SOURCE_COL (r SOURCE_COL) Hsub).
    unfold len. destruct (filter _ (rows m)); [by apply elem_of_nil in Hin|].
    cbn [length] in *. lia.
Qed.

(** X11. When an archive is sent, the message flashed with it is the
    success message, and the two numbers it shows are the number of
    mismatch rows and the number of entries of the archive; there is at
    least one entry and at most one for each mismatch row. *)
Theorem success_message_counts sheet message category archive :
  upload_file sheet = SendFile message category archive →
  ∃ mismatch_df count full_df,
    process_excel_data sheet = Loaded mismatch_df count full_df
    ∧ message = found_message (len (rows mismatch_df)) (len archive)
    ∧ category = lit "success"
    ∧ 0 < len archive ≤ len (rows mismatch_df).
Proof.
  intros (m & n & f & Hload & Hrows & Hall & -> & ->)%upload_file_sends.
  exists m, n, f. pose proof (loaded_frames _ _ _ _ Hload) as (_ & _ & _ & _ & ->).
  split_and!; try done.
  - unfold len. apply Forall2_length in Hall. rewrite <- Hall.
    pose proof (mismatch_sources_are_text _ _ _ _ Hload) as Hstr.
    rewrite (sorted_keys_Permutation _ Hstr).
    unfold sources in *. destruct (rows m) as [|r rs]; [done|].
    rewrite fmap_cons. cbn [remove_dups]. case_match; [|cbn; lia].
    assert (r SOURCE_COL ∈ remove_dups ((λ r : row, r SOURCE_COL) <$> rs)) as Hin
      by (by apply elem_of_remove_dups).
    destruct (remove_dups _); [by apply elem_of_nil in Hin|cbn; lia].
  - unfold len. apply Forall2_length in Hall. rewrite <- Hall.
    pose proof (mismatch_sources_are_text _ _ _ _ Hload) as Hstr.
    rewrite (sorted_keys_Permutation _ Hstr). apply inj_le.
    etrans; [apply length_remove_dups_le|]. unfold sources. by rewrite length_fmap.
Qed.

(** X12. The entries of an archive follow the sources of the mismatch rows
    in ascending order, one entry for each distinct source; the entry of a
    source is named ANPR_Report_, its sanitized name, .pdf, and its report
    is titled with the display name of the source, a non-empty text. *)
Theorem archive_entries_in_source_order sheet message category archive :
  upload_file sheet = SendFile message category archive →
  ∃ keys,
    StronglySorted cell_le keys
    ∧ NoDup keys
    ∧ (∀ key, key ∈ keys ↔ key ∈ sources (mismatch_of (process_excel_data sheet)))
    ∧ Forall2
        (λ key (entry : pystr * ANPR_Report_PDF),
           entry.1 = lit "ANPR_Report_" ++ sanitized key ++ lit ".pdf"
           ∧ report_title entry.2 = display_name key
           ∧ ∃ title, display_name key = Str title ∧ title ≠ [])
        keys archive.
Proof.
  intros (m & n & f & Hload & _ & Hall & _)%upload_file_sends.
  rewrite Hload. cbn [mismatch_of].
  pose proof (mismatch_sources_are_text _ _ _ _ Hload) as Hstr.
  exists (sorted_keys (sources m)). split_and!.
  - unfold sorted_keys. apply (StronglySorted_merge_sort _).
  - apply NoDup_sorted_keys.
  - intros key. rewrite elem_of_sorted_keys. split; [tauto|]. intros Hkey.
    split; [done|]. eapply Forall_forall in Hstr as [s ->]; done.
  - assert (Forall (λ key, ∃ s, key = Str s) (sorted_keys (sources m))) as Hkeys.
    { apply Forall_forall. intros key [Hkey _]%elem_of_sorted_keys.
      by eapply Forall_forall in Hstr. }
    induction Hall as [|key entry keys entries [Hpdf (safe & Hsafe & Hname)] _ IH];
      [constructor|].
    apply Forall_cons in Hkeys as [[s ->] Hkeys]. constructor; [|by apply IH].
    destruct (display_name_text s) as (title & Htitle & Hne).
    apply create_pdf_report_fields in Hpdf as (_ & Hreport & _).
    rewrite Htitle in Hsafe. cbn [secure_filename_of] in Hsafe.
    assert (safe = secure_filename title) as -> by congruence.
    unfold sanitized. rewrite Htitle. split_and!; [done|congruence|by exists title].
Qed.
End route_properties.

(** ** The request boundary *)

Lemma rsplit_last_None (sep : N) (s : pystr) :
  rsplit_last sep s = None ↔ sep ∉ s.
Proof.
  induction s as [|c s IH]; cbn.
  - split; [intros _; apply not_elem_of_nil|done].
  - destruct (rsplit_last sep s) as [[before after]|].
    + split; [done|]. intros Hnot. assert (sep ∉ s) as Hs by (intros ?; apply Hnot; by right).
      by apply IH in Hs.
    + case_bool_decide as Hc.
      * split; [done|]. intros Hnot. destruct Hnot. subst. left.
      * split; [|done]. intros _ [?|Hs]%elem_of_cons; [done|].
        by apply IH in Hs.
Qed.

Lemma rsplit_last_sound (sep : N) (s before after : pystr) :
  rsplit_last sep s = Some (before, after) →
  s = before ++ sep :: after ∧ sep ∉ after.
Proof.
  revert before after. induction s as [|c s IH]; intros before after; [done|].
  cbn. destruct (rsplit_last sep s) as [[before' after']|] eqn:Hlast.
  - intros [= <- <-]. destruct (IH _ _ eq_refl) as [-> Hafter]. done.
  - case_bool_decide as Hc; [|done]. intros [= <- <-]. subst c.
    split; [done|]. by apply rsplit_last_None.
Qed.

Lemma last_separator_unique (sep : N) (before1 after1 before2 after2 : pystr) :
  before1 ++ sep :: after1 = before2 ++ sep :: after2 →
  sep ∉ after1 → sep ∉ after2 →
  before1 = before2 ∧ after1 = after2.
Proof.
  revert before2. induction before1 as [|c before1 IH]; intros [|c' before2] Heq H1 H2.
  - by injection Heq.
  - injection Heq as -> ->. destruct H1. apply elem_of_app. right. left.
  - injection Heq as -> <-. destruct H2. apply elem_of_app. right. left.
  - injection Heq as -> Heq. destruct (IH _ Heq H1 H2) as [-> ->]. done.
Qed.

Lemma rsplit_last_Some (sep : N) (s before after : pystr) :
  rsplit_last sep s = Some (before, after)
  ↔ s = before ++ sep :: after ∧ sep ∉ after.
Proof.
  split; [apply rsplit_last_sound|]. intros [-> Hafter].
  destruct (rsplit_last sep (before ++ sep :: after)) as [[before' after']|] eqn:Hlast.
  - apply rsplit_last_sound in Hlast as [Heq Hafter'].
    by destruct (last_separator_unique _ _ _ _ _ Heq Hafter Hafter') as [-> ->].
  - apply rsplit_last_None in Hlast. destruct Hlast. apply elem_of_app. right. left.
Qed.

Section boundary_properties.
Context `{Runtime}.

(** X13. The check of the file name never raises, and it accepts a name
    exactly when the name has a full stop and the text after its last full
    stop, in lower case, is [xlsx] or [xls]. A name without a full stop is
    refused. *)
Theorem allowed_file_last_extension (name : pystr) :
  ∃ allowed,
    allowed_file name = Ok allowed
    ∧ (allowed = true
       ↔ ∃ stem extension,
           name = stem ++ dot :: extension
           ∧ (dot ∉ extension)
           ∧ lower extension ∈ ALLOWED_EXTENSIONS).
Proof.
  unfold allowed_file, rsplit. case_bool_decide as Hdot.
  - destruct (rsplit_last dot name) as [[stem extension]|] eqn:Hlast;
      [|by apply rsplit_last_None in Hlast].
    eexists. split; [done|]. rewrite bool_decide_eq_true.
    pose proof Hlast as [-> Hext]%rsplit_last_sound. split.
    + intros Hallowed. by exists stem, extension.
    + intros (stem' & extension' & Heq & Hext' & Hallowed).
      by destruct (last_separator_unique _ _ _ _ _ Heq Hext Hext') as [-> ->].
  - exists false. split; [done|]. split; [done|].
    intros (stem & extension & -> & _). destruct Hdot. apply elem_of_app. right. left.
Qed.

Lemma allowed_file_total (name : pystr) : ∃ allowed, allowed_file name = Ok allowed.
Proof.
  unfold allowed_file, rsplit. case_bool_decide as Hdot; [|by eexists].
  destruct (rsplit_last dot name) as [[stem extension]|] eqn:Hlast;
    [by eexists|by apply rsplit_last_None in Hlast].
Qed.

(** X14. A request is turned away with an error page, whatever the file
    holds, when it has no file part, when the file has no name, or when the
    check of the name refuses it; the three cases show their own message.
    The route never lets an exception escape. *)
Theorem upload_request_rejected (files : option FileStorage) :
  (∃ r, upload_file_request files = Ok r)
  ∧ (files = None →
     upload_file_request files
     = Ok (Page (lit "No file part in the request.") (lit "error")))
  ∧ (∀ name content,
       files = Some {| filename := name; stream := content |} →
       allowed_file name = Ok false →
       upload_file_request files
       = Ok (Page (if bool_decide (name = []) then lit "No selected file."
                   else lit "Invalid file type. Only .xlsx and .xls are allowed.")
               (lit "error"))).
Proof.
  split_and!.
  - destruct files as [[name content]|]; [|by eexists].
    unfold upload_file_request. cbn [filename stream].
    case_bool_decide as Hname; [by eexists|].
    rewrite bool_decide_eq_true_2 by done.
    destruct (allowed_file_total name) as [allowed ->]. rewrite bind_ok.
    destruct allowed; [|by eexists].
    destruct (upload_file content); [by eexists|].
    destruct (output_zip_filename name); by eexists.
  - by intros ->.
  - intros name content -> Hrefused. unfold upload_file_request. cbn [filename stream].
    case_bool_decide as Hname; [done|].
    rewrite bool_decide_eq_true_2 by done. by rewrite Hrefused.
Qed.

(** X15. A request whose file name passes the check is answered with what
    the processing of the file gives: its redirect as a page with the same
    message, or its archive as an attachment named
    ANPR_Reports_Grouped_By_Source_, the sanitized text before the last full
    stop of the file name, .zip. *)
Theorem upload_request_accepted (name : pystr) (content : res DataFrame) :
  allowed_file name = Ok true →
  ∃ stem extension,
    name = stem ++ dot :: extension
    ∧ (dot ∉ extension)
    ∧ upload_file_request (Some {| filename := name; stream := content |})
      = Ok match upload_file content with
           | Redirect message category => Page message category
           | SendFile message category archive =>
               Attachment message category archive
                 (lit "ANPR_Reports_Grouped_By_Source_" ++ secure_filename stem
                    ++ lit ".zip")
           end.
Proof.
  intros Hallowed. unfold allowed_file, rsplit in Hallowed.
  case_bool_decide as Hdot; [|done].
  destruct (rsplit_last dot name) as [[stem extension]|] eqn:Hlast;
    [|by apply rsplit_last_None in Hlast].
  pose proof Hlast as [Hname Hext]%rsplit_last_sound.
  exists stem, extension. split_and!; [done..|].
  assert (name ≠ []) as Hne by (intros ->; by apply elem_of_nil in Hdot).
  unfold upload_file_request. cbn [filename stream].
  rewrite bool_decide_eq_false_2, bool_decide_eq_true_2 by done.
  unfold allowed_file, rsplit. rewrite bool_decide_eq_true_2, Hlast by done.
  cbn [list_getitem lookup list_lookup] in *. rewrite bind_ok in *.
  rewrite Hallowed.
  unfold output_zip_filename, rsplit. rewrite Hlast.
  by destruct (upload_file content).
Qed.
End boundary_properties.

(** ** The further properties on examples

    Everything below is evaluated with [basic_latin]. *)

Section further_examples.
#[local] Existing Instance basic_latin.

(** A decidable statement about concrete data, settled by evaluation. *)
Ltac evaluate :=
  match goal with
  | |- ?P => apply (bool_decide_unpack P); vm_compute; exact I
  end.

Lemma check_ignores_surrounding_space_witness :
  Forall (λ c, isspace c = true) (lit " " ++ lit "  " ++ [9%N] ++ [160%N; 10%N])
  ∧ check_exactly_one_mismatch_or_missing
      (lit " " ++ lit "KA01AB1234" ++ lit "  ") ([9%N] ++ lit "KA01AB123" ++ [160%N; 10%N])
    = check_exactly_one_mismatch_or_missing (lit "KA01AB1234") (lit "KA01AB123")
  ∧ check_exactly_one_mismatch_or_missing (strip (lit "KA01AB1234")) (strip (lit "KA01AB123"))
    = check_exactly_one_mismatch_or_missing (lit "KA01AB1234") (lit "KA01AB123").
Proof.
  assert (Forall (λ c, isspace c = true) (lit " " ++ lit "  " ++ [9%N] ++ [160%N; 10%N]))
    as Hspaces by evaluate.
  split; [exact Hspaces|].
  exact (check_ignores_surrounding_space (lit " ") (lit "  ") [9%N] [160%N; 10%N]
           (lit "KA01AB1234") (lit "KA01AB123") Hspaces).
Defined.

Lemma check_rejects_transposition_witness :
  check_exactly_one_mismatch_or_missing (lit "KA10AB") (lit " KA01AB") = Ok false.
Proof.
  apply (check_rejects_transposition (lit "KA10AB") (lit " KA01AB")
           (lit "KA") (lit "AB") 49%N 48%N); [done|by vm_compute..].
Defined.


Lemma loader_cleans_three_columns_witness :
  ∃ mismatch_df count full_df,
    process_excel_data (Ok sheet_remarks) = Loaded mismatch_df count full_df
    ∧ columns full_df = columns sheet_remarks
    ∧ Forall2
        (λ r r' : row,
           r' ANPR_COL = Str (upper (strip (py_str (r ANPR_COL))))
           ∧ r' TC_COL = Str (upper (strip (py_str (r TC_COL))))
           ∧ r' SOURCE_COL = Str (strip (py_str (r SOURCE_COL)))
           ∧ ∀ col, col ∉ [ANPR_COL; TC_COL; SOURCE_COL] → r' col = r col)
        (rows sheet_remarks) (rows full_df).
Proof.
  eexists _, _, _. split; [apply process_excel_data_ok; evaluate|].
  eapply (loader_cleans_three_columns sheet_remarks).
  apply process_excel_data_ok; evaluate.
Defined.

(** On the worksheet with remarks the first row is a near-mismatch once
    cleaned, and its remark is kept as it was. *)
Example sheet_remarks_loaded :
  (λ r : row, (r ANPR_COL, r TC_COL, r SOURCE_COL, r (lit "remark")))
    <$> rows (mismatch_of (process_excel_data (Ok sheet_remarks)))
  = [(Str (lit "KA01AB1234"), Str (lit "KA01AB123"), Str (lit "Gate A"),
      Str (lit " keep me "))].
Proof. by vm_compute. Qed.

Lemma report_rows_and_images_witness :
  ∃ pdf texts plate vehicle,
    create_pdf_report sheet_required_only sheet_lanes (Str (lit "Lane 1")) = Ok pdf
    ∧ DataRow texts plate vehicle ∈ content pdf
    ∧ length texts = 3%nat
    ∧ (lit "image_path" ∉ columns sheet_required_only → plate = ImageNotFound)
    ∧ (lit "vehicle_image" ∉ columns sheet_required_only → vehicle = ImageNotFound)
    ∧ ∀ path, plate = Image path ∨ vehicle = Image path →
        path ≠ [] ∧ path_exists path = true ∧ image_loads path = true.
Proof.
  destruct (create_pdf_report_ok sheet_required_only sheet_lanes (Str (lit "Lane 1")))
    as [pdf Hpdf]; [evaluate..|].
  destruct (create_pdf_report_fields _ _ _ _ Hpdf) as (_ & _ & _ & _ & Htable).
  assert (data_row (columns sheet_required_only)
            (row_of [(ANPR_COL, Str (lit "ABC123")); (TC_COL, Str (lit "ABD123"));
                     (SOURCE_COL, Str (lit "Lane 1"))])
          ∈ content pdf) as Hin.
  { eapply (proj1 (list_elem_of_filter (λ d, is_data_row d = true) _ _)).
    rewrite Htable. left. }
  unfold data_row in Hin.
  eexists pdf, _, _, _. split; [exact Hpdf|]. split; [exact Hin|].
  exact (report_rows_and_images sheet_required_only sheet_lanes (Str (lit "Lane 1"))
           _ _ _ _ Hpdf Hin).
Defined.

Lemma archive_counts_add_up_witness :
  ∃ message category archive mismatch_df count full_df,
    upload_file (Ok sheet_lanes) = SendFile message category archive
    ∧ process_excel_data (Ok sheet_lanes) = Loaded mismatch_df count full_df
    ∧ sum_list_with (λ entry : pystr * ANPR_Report_PDF,
                       Z.to_nat (mismatch_count entry.2)) archive
      = length (rows mismatch_df)
    ∧ (sum_list_with (λ entry : pystr * ANPR_Report_PDF,
                        Z.to_nat (total_count entry.2)) archive
       ≤ length (rows full_df))%nat
    ∧ Forall (λ entry : pystr * ANPR_Report_PDF,
                1 ≤ mismatch_count entry.2 ≤ total_count entry.2) archive.
Proof.
  destruct (route_succeeds_with_sequence_column sheet_lanes)
    as (count & archive & Hsend); [evaluate..|].
  destruct (archive_counts_add_up (Ok sheet_lanes) _ _ _ Hsend)
    as (mismatch_df & count' & full_df & Hrest).
  exists (found_message count (len archive)), (lit "success"), archive,
    mismatch_df, count', full_df.
  split; [exact Hsend|exact Hrest].
Defined.

Lemma success_message_counts_witness :
  ∃ message category archive mismatch_df count full_df,
    upload_file (Ok sheet_lanes) = SendFile message category archive
    ∧ process_excel_data (Ok sheet_lanes) = Loaded mismatch_df count full_df
    ∧ message = found_message (len (rows mismatch_df)) (len archive)
    ∧ category = lit "success"
    ∧ 0 < len archive ≤ len (rows mismatch_df).
Proof.
  destruct (route_succeeds_with_sequence_column sheet_lanes)
    as (count & archive & Hsend); [evaluate..|].
  destruct (success_message_counts (Ok sheet_lanes) _ _ _ Hsend)
    as (mismatch_df & count' & full_df & Hrest).
  exists (found_message count (len archive)), (lit "success"), archive,
    mismatch_df, count', full_df.
  split; [exact Hsend|exact Hrest].
Defined.

Lemma archive_entries_in_source_order_witness :
  ∃ message category archive keys,
    upload_file (Ok sheet_lanes) = SendFile message category archive
    ∧ StronglySorted cell_le keys
    ∧ NoDup keys
    ∧ (∀ key, key ∈ keys
              ↔ key ∈ sources (mismatch_of (process_excel_data (Ok sheet_lanes))))
    ∧ Forall2
        (λ key (entry : pystr * ANPR_Report_PDF),
           entry.1 = lit "ANPR_Report_" ++ sanitized key ++ lit ".pdf"
           ∧ report_title entry.2 = display_name key
           ∧ ∃ title, display_name key = Str title ∧ title ≠ [])
        keys archive.
Proof.
  destruct (route_succeeds_with_sequence_column sheet_lanes)
    as (count & archive & Hsend); [evaluate..|].
  destruct (archive_entries_in_source_order (Ok sheet_lanes) _ _ _ Hsend)
    as (keys & Hrest).
  exists (found_message count (len archive)), (lit "success"), archive, keys.
  split; [exact Hsend|exact Hrest].
Defined.

Lemma upload_request_rejected_witness :
  allowed_file (lit "week 12.pdf") = Ok false
  ∧ upload_file_request
      (Some {| filename := lit "week 12.pdf"; stream := Ok sheet_lanes |})
    = Ok (Page (lit "Invalid file type. Only .xlsx and .xls are allowed.") (lit "error"))
  ∧ upload_file_request (Some {| filename := []; stream := Ok sheet_lanes |})
    = Ok (Page (lit "No selected file.") (lit "error")).
Proof.
  assert (allowed_file (lit "week 12.pdf") = Ok false) as Hpdf by (vm_compute; reflexivity).
  assert (allowed_file [] = Ok false) as Hempty by (vm_compute; reflexivity).
  split; [exact Hpdf|]. split.
  - exact (proj2 (proj2 (upload_request_rejected
             (Some {| filename := lit "week 12.pdf"; stream := Ok sheet_lanes |})))
             (lit "week 12.pdf") (Ok sheet_lanes) eq_refl Hpdf).
  - exact (proj2 (proj2 (upload_request_rejected
             (Some {| filename := []; stream := Ok sheet_lanes |})))
             [] (Ok sheet_lanes) eq_refl Hempty).
Defined.

Lemma upload_request_accepted_witness :
  allowed_file (filename upload_lanes) = Ok true
  ∧ ∃ stem extension,
      filename upload_lanes = stem ++ dot :: extension
      ∧ (dot ∉ extension)
      ∧ upload_file_request
          (Some {| filename := filename upload_lanes; stream := stream upload_lanes |})
        = Ok match upload_file (stream upload_lanes) with
             | Redirect message category => Page message category
             | SendFile message category archive =>
                 Attachment message category archive
                   (lit "ANPR_Reports_Grouped_By_Source_" ++ secure_filename stem
                      ++ lit ".zip")
             end.
Proof.
  assert (allowed_file (filename upload_lanes) = Ok true) as Hallowed
    by (vm_compute; reflexivity).
  split; [exact Hallowed|].
  exact (upload_request_accepted (filename upload_lanes) (stream upload_lanes) Hallowed).
Defined.

(** On the worksheet with the four columns and no row, the mismatch frame
    has neither rows nor columns, the full frame keeps its columns, and the
    route reports that it found nothing. *)
Example header_only_sheet :
  process_excel_data (Ok sheet_header_only)
  = Loaded {| columns := []; rows := [] |} 0 {| columns := all_columns; rows := [] |}
  ∧ upload_file (Ok sheet_header_only) = Redirect no_mismatch_message (lit "success").
Proof. by vm_compute. Qed.

(** A near-mismatch with a plate that ends in a Greek omega: its report
    cannot be encoded, and the route answers with an error and no
    archive. *)
Example omega_plate_is_an_error :
  (∃ texts,
     create_pdf_report sheet_omega sheet_omega (Str (lit "Lane 1"))
     = Raise (UnicodeEncodeError (encoding_error texts)))
  ∧ ∃ texts,
      upload_file (Ok sheet_omega)
      = Redirect
          (lit "An unexpected error occurred during processing or report generation: "
             ++ encoding_error texts) (lit "error").
Proof. split; exists []; vm_compute; reflexivity. Qed.

(** In a lane whose sequence column was read as floats, the zero is the
    text 0.0 and is not counted; the empty cell is. *)
Example float_sequences_counted :
  archive_zero_counts (upload_file (Ok sheet_float_sequences))
  = [(lit "ANPR_Report_Lane_1.pdf", 2, 1)].
Proof. by vm_compute. Qed.

(** Eight rows fill a page. A report of up to six rows is one page; with
    seven or eight rows the summary moves to a second page; the ninth row
    starts the second page itself, and the seventeenth a third. *)
Example pages_of_a_report :
  report_footers (create_pdf_report (sheet_of_rows 6) (sheet_of_rows 6) (Str (lit "Lane 1")))
  = [lit "Page 1"]
  ∧ report_footers
      (create_pdf_report (sheet_of_rows 7) (sheet_of_rows 7) (Str (lit "Lane 1")))
    = [lit "Page 1"; lit "Page 2"]
  ∧ report_footers
      (create_pdf_report (sheet_of_rows 9) (sheet_of_rows 9) (Str (lit "Lane 1")))
    = [lit "Page 1"; lit "Page 2"]
  ∧ report_footers
      (create_pdf_report (sheet_of_rows 16) (sheet_of_rows 16) (Str (lit "Lane 1")))
    = [lit "Page 1"; lit "Page 2"; lit "Page 3"]
  ∧ report_footers
      (create_pdf_report (sheet_of_rows 17) (sheet_of_rows 17) (Str (lit "Lane 1")))
    = [lit "Page 1"; lit "Page 2"; lit "Page 3"].
Proof. by vm_compute. Qed.

(** The upload of the three lanes under the name week 12.final.XLSX is
    answered with an attachment named after the text before the last full
    stop; the same content under a name ending in .csv, or without a full
    stop, is turned away. *)
Example upload_lanes_reply :
  (match upload_file_request (Some upload_lanes) with
   | Ok (Attachment _ _ archive download_name) => Some (length archive, download_name)
   | _ => None
   end = Some (2%nat, lit "ANPR_Reports_Grouped_By_Source_week_12.final.zip"))
  ∧ upload_file_request
      (Some {| filename := lit "week 12.xlsx.csv"; stream := Ok sheet_lanes |})
    = Ok (Page (lit "Invalid file type. Only .xlsx and .xls are allowed.") (lit "error"))
  ∧ upload_file_request (Some {| filename := lit "xlsx"; stream := Ok sheet_lanes |})
    = Ok (Page (lit "Invalid file type. Only .xlsx and .xls are allowed.") (lit "error")).
Proof. by vm_compute. Qed.
End further_examples.
